(** * AtomGrowth-Notebook: template inheritance and override resolution

    A shallow embedding of [atomgrowth/models/recipe.py],
    [atomgrowth/models/experiment.py] and
    [atomgrowth/core/template_manager.py], followed by the properties of the
    template store, the inheritance resolver, the merge engine, the field path
    accessor and the experiment override model. *)

From Stdlib Require Import PrimFloat Ascii.
From stdpp Require Import gmap strings list fin_maps relations.

#[local] Set Warnings "-register-all,-clear-no-such-hyp".
#[local] Open Scope string_scope.

(** ** Python values

    The values the accessor can meet ([obj: Any], [value: Any]): the scalars,
    lists, [str]-keyed dicts, instances of the five dataclasses of
    [recipe.py] (their instance [__dict__]), and objects of runtime types that
    are not modelled further (bound methods, classes, ...). *)

Inductive pyclass : Type :=
| CRecipeTemplate
| CTemperatureProfile
| CGasFlow
| CPrecursorSetup
| CSubstrateInfo.

Inductive pyval : Type :=
| PNone
| PBool (b : bool)
| PInt (z : Z)
| PFloat (f : float)
| PStr (s : string)
| PList (l : list pyval)
| PDict (d : gmap string pyval)
| PObj (cls : pyclass) (attrs : gmap string pyval)
| POpaque (tag : string).

(** [value is None] *)
Definition is_None (v : pyval) : bool :=
  match v with PNone => true | _ => false end.

(** Truthiness of a [str] and of an [Optional[str]] ([if parent_id:],
    [while current_id:], [if reason:], [a or b]). *)
Definition str_truthy (s : string) : bool :=
  match s with EmptyString => false | String _ _ => true end.

Definition opt_truthy (o : option string) : bool :=
  match o with None => false | Some s => str_truthy s end.

(** ** Exceptions and outcomes

    Every error of the template manager is a [ValueError]; the constructors
    keep the message apart.  [OutOfFuel] is the outcome of a [while] loop cut
    off by its iteration budget; it is no Python outcome. *)

Inductive exn : Type :=
| NotFound (template_id : string)
    (* "Template '<id>' not found", "Parent template '<id>' not found" *)
| CycleDetected
    (* "Cannot create circular inheritance" *)
| CircularInheritance
    (* "Circular inheritance detected" *)
| HasChildren (child_name : string)
    (* "Cannot delete: template '<name>' inherits from this template" *)
| AttributeError
| IndexError.

Inductive outcome (A : Type) : Type :=
| Return (a : A)
| Raise (e : exn)
| OutOfFuel.
Arguments Return {A} a.
Arguments Raise {A} e.
Arguments OutOfFuel {A}.

#[global] Instance outcome_ret : MRet outcome := λ A a, Return a.
#[global] Instance outcome_bind : MBind outcome := λ A B k m,
  match m with
  | Return a => k a
  | Raise e => Raise e
  | OutOfFuel => OutOfFuel
  end.

(** ** The Python runtime

    What the program takes from the interpreter and not from its own text:
    the attributes an object finds on its type ([type_attr]: methods, dunder
    attributes, class-level values), what the type does with an assignment
    that does not go to the instance [__dict__] ([type_setattr]: a data
    descriptor of the type, or an opaque object), and the order in which a
    [set] of strings is listed. *)

Class PyRuntime : Type := {
  type_attr : pyval → string → option pyval;
  type_setattr : pyval → string → pyval → option (outcome pyval);
  set_union_list : list string → list string → list string;
  set_union_list_NoDup : ∀ a b, NoDup (set_union_list a b);
  set_union_list_elem : ∀ a b x, x ∈ set_union_list a b ↔ x ∈ a ∨ x ∈ b;
}.

Section builtins.
Context `{PyRuntime}.

Definition instance_attr (v : pyval) (name : string) : option pyval :=
  match v with
  | PObj _ attrs => attrs !! name
  | _ => None
  end.

(** [getattr(v, name)]: the instance [__dict__], then the type. *)
Definition py_getattr (v : pyval) (name : string) : outcome pyval :=
  match instance_attr v name with
  | Some x => Return x
  | None =>
      match type_attr v name with
      | Some x => Return x
      | None => Raise AttributeError
      end
  end.

(** [hasattr(v, name)]: [getattr] with [AttributeError] caught. *)
Definition py_hasattr (v : pyval) (name : string) : bool :=
  match py_getattr v name with
  | Raise AttributeError => false
  | _ => true
  end.

(** [setattr(v, name, x)].  Only instances of the dataclasses carry an
    instance [__dict__]; on every other value the generic assignment
    raises [AttributeError] (no such attribute, or a read-only one). *)
Definition py_setattr (v : pyval) (name : string) (x : pyval) : outcome pyval :=
  match type_setattr v name x with
  | Some r => r
  | None =>
      match v with
      | PObj cls attrs => Return (PObj cls (<[name := x]> attrs))
      | _ => Raise AttributeError
      end
  end.
End builtins.

(** [path.split('.')]: never the empty list. *)
Fixpoint split_dot (path : string) : list string :=
  match path with
  | EmptyString => [EmptyString]
  | String c rest =>
      if Ascii.eqb c "."%char then EmptyString :: split_dot rest
      else
        match split_dot rest with
        | [] => [String c EmptyString]
        | part :: parts => String c part :: parts
        end
  end.

(** ** A [dict] with [str] keys, in insertion order

    [values()] lists in insertion order, which decides which child
    [delete_template] names. *)
Module odict.
Section odict.
Context {V : Type}.

Fixpoint get (d : list (string * V)) (k : string) : option V :=
  match d with
  | [] => None
  | (k', v) :: d' => if decide (k' = k) then Some v else get d' k
  end.

(** [k in d] *)
Definition contains (d : list (string * V)) (k : string) : bool :=
  match get d k with Some _ => true | None => false end.

(** [d[k] = v]: a present key keeps its place, a new one goes last. *)
Fixpoint set (d : list (string * V)) (k : string) (v : V) : list (string * V) :=
  match d with
  | [] => [(k, v)]
  | (k', v') :: d' =>
      if decide (k' = k) then (k, v) :: d' else (k', v') :: set d' k v
  end.

(** [del d[k]], for a key that is present. *)
Definition del (d : list (string * V)) (k : string) : list (string * V) :=
  filter (λ kv, kv.1 ≠ k) d.

Definition values (d : list (string * V)) : list V := d.*2.
Definition keys (d : list (string * V)) : list string := d.*1.
End odict.
End odict.

(** ** Dataclasses

    [dataclasses.fields], [getattr] and [setattr] over the parameter sections,
    whose fields are declared [float] or [str]. *)

Inductive field_kind : Type := KFloat | KStr.

Definition kind_type (k : field_kind) : Type :=
  match k with KFloat => float | KStr => string end.

Definition kind_val (k : field_kind) : kind_type k → pyval :=
  match k with KFloat => PFloat | KStr => PStr end.

Class Dataclass (S : Type) : Type := {
  dc_class : pyclass;
  dc_field : Type;
  (** [fields(S)], in declaration order *)
  dc_fields : list dc_field;
  dc_name : dc_field → string;
  dc_kind : dc_field → field_kind;
  dc_getattr : ∀ f : dc_field, S → kind_type (dc_kind f);
  dc_setattr : ∀ f : dc_field, S → kind_type (dc_kind f) → S;
}.

(** The instance seen as a Python object, for the field path accessor. *)
Definition reflect_dataclass {S : Type} `{Dataclass S} (s : S) : pyval :=
  PObj dc_class
    (list_to_map ((λ f, (dc_name f, kind_val (dc_kind f) (dc_getattr f s))) <$> dc_fields)).

(** ** [atomgrowth/models/recipe.py] *)
Module recipe.

Record TemperatureProfile : Type := {
  ramp_rate_1 : float;
  hold_temp_1 : float;
  hold_time_1 : float;
  ramp_rate_2 : float;
  peak_temp : float;
  peak_hold_time : float;
  cooling_method : string;
  controlled_cool_rate : float;
}.

Definition TemperatureProfile_default : TemperatureProfile := {|
  ramp_rate_1 := 10.0;
  hold_temp_1 := 300.0;
  hold_time_1 := 10.0;
  ramp_rate_2 := 5.0;
  peak_temp := 750.0;
  peak_hold_time := 15.0;
  cooling_method := "natural";
  controlled_cool_rate := 10.0;
|}.

Inductive TemperatureField : Type :=
| F_ramp_rate_1 | F_hold_temp_1 | F_hold_time_1 | F_ramp_rate_2
| F_peak_temp | F_peak_hold_time | F_cooling_method | F_controlled_cool_rate.

Definition temperature_kind (f : TemperatureField) : field_kind :=
  match f with F_cooling_method => KStr | _ => KFloat end.

Definition temperature_getattr (f : TemperatureField) (s : TemperatureProfile)
  : kind_type (temperature_kind f) :=
  match f with
  | F_ramp_rate_1 => ramp_rate_1 s
  | F_hold_temp_1 => hold_temp_1 s
  | F_hold_time_1 => hold_time_1 s
  | F_ramp_rate_2 => ramp_rate_2 s
  | F_peak_temp => peak_temp s
  | F_peak_hold_time => peak_hold_time s
  | F_cooling_method => cooling_method s
  | F_controlled_cool_rate => controlled_cool_rate s
  end.

Definition temperature_setattr (f : TemperatureField) (s : TemperatureProfile)
  : kind_type (temperature_kind f) → TemperatureProfile :=
  let 'Build_TemperatureProfile a b c d e g h i := s in
  match f with
  | F_ramp_rate_1 => λ v, Build_TemperatureProfile v b c d e g h i
  | F_hold_temp_1 => λ v, Build_TemperatureProfile a v c d e g h i
  | F_hold_time_1 => λ v, Build_TemperatureProfile a b v d e g h i
  | F_ramp_rate_2 => λ v, Build_TemperatureProfile a b c v e g h i
  | F_peak_temp => λ v, Build_TemperatureProfile a b c d v g h i
  | F_peak_hold_time => λ v, Build_TemperatureProfile a b c d e v h i
  | F_cooling_method => λ v, Build_TemperatureProfile a b c d e g v i
  | F_controlled_cool_rate => λ v, Build_TemperatureProfile a b c d e g h v
  end.

#[global] Instance TemperatureProfile_dataclass : Dataclass TemperatureProfile := {|
  dc_class := CTemperatureProfile;
  dc_field := TemperatureField;
  dc_fields := [F_ramp_rate_1; F_hold_temp_1; F_hold_time_1; F_ramp_rate_2;
                F_peak_temp; F_peak_hold_time; F_cooling_method; F_controlled_cool_rate];
  dc_name := λ f,
    match f with
    | F_ramp_rate_1 => "ramp_rate_1"
    | F_hold_temp_1 => "hold_temp_1"
    | F_hold_time_1 => "hold_time_1"
    | F_ramp_rate_2 => "ramp_rate_2"
    | F_peak_temp => "peak_temp"
    | F_peak_hold_time => "peak_hold_time"
    | F_cooling_method => "cooling_method"
    | F_controlled_cool_rate => "controlled_cool_rate"
    end;
  dc_kind := temperature_kind;
  dc_getattr := temperature_getattr;
  dc_setattr := temperature_setattr;
|}.

Record GasFlow : Type := {
  ar_flow : float;
  h2_flow : float;
  total_flow : float;
}.

Definition GasFlow_default : GasFlow := {|
  ar_flow := 100.0;
  h2_flow := 0.0;
  total_flow := 100.0;
|}.

Inductive GasField : Type := F_ar_flow | F_h2_flow | F_total_flow.

Definition gas_getattr (f : GasField) (s : GasFlow) : kind_type KFloat :=
  match f with
  | F_ar_flow => ar_flow s
  | F_h2_flow => h2_flow s
  | F_total_flow => total_flow s
  end.

Definition gas_setattr (f : GasField) (s : GasFlow) (v : kind_type KFloat) : GasFlow :=
  let 'Build_GasFlow a b c := s in
  match f with
  | F_ar_flow => Build_GasFlow v b c
  | F_h2_flow => Build_GasFlow a v c
  | F_total_flow => Build_GasFlow a b v
  end.

#[global] Instance GasFlow_dataclass : Dataclass GasFlow := {|
  dc_class := CGasFlow;
  dc_field := GasField;
  dc_fields := [F_ar_flow; F_h2_flow; F_total_flow];
  dc_name := λ f,
    match f with
    | F_ar_flow => "ar_flow"
    | F_h2_flow => "h2_flow"
    | F_total_flow => "total_flow"
    end;
  dc_kind := λ _, KFloat;
  dc_getattr := gas_getattr;
  dc_setattr := gas_setattr;
|}.

Record PrecursorSetup : Type := {
  moo3_amount : float;
  s_amount : float;
  moo3_position : float;
  s_position : float;
  moo3_boat_material : string;
  s_boat_material : string;
}.

Definition PrecursorSetup_default : PrecursorSetup := {|
  moo3_amount := 5.0;
  s_amount := 100.0;
  moo3_position := 0.0;
  s_position := -15.0;
  moo3_boat_material := "alumina";
  s_boat_material := "quartz";
|}.

Inductive PrecursorField : Type :=
| F_moo3_amount | F_s_amount | F_moo3_position | F_s_position
| F_moo3_boat_material | F_s_boat_material.

Definition precursor_kind (f : PrecursorField) : field_kind :=
  match f with
  | F_moo3_boat_material | F_s_boat_material => KStr
  | _ => KFloat
  end.

Definition precursor_getattr (f : PrecursorField) (s : PrecursorSetup)
  : kind_type (precursor_kind f) :=
  match f with
  | F_moo3_amount => moo3_amount s
  | F_s_amount => s_amount s
  | F_moo3_position => moo3_position s
  | F_s_position => s_position s
  | F_moo3_boat_material => moo3_boat_material s
  | F_s_boat_material => s_boat_material s
  end.

Definition precursor_setattr (f : PrecursorField) (s : PrecursorSetup)
  : kind_type (precursor_kind f) → PrecursorSetup :=
  let 'Build_PrecursorSetup a b c d e g := s in
  match f with
  | F_moo3_amount => λ v, Build_PrecursorSetup v b c d e g
  | F_s_amount => λ v, Build_PrecursorSetup a v c d e g
  | F_moo3_position => λ v, Build_PrecursorSetup a b v d e g
  | F_s_position => λ v, Build_PrecursorSetup a b c v e g
  | F_moo3_boat_material => λ v, Build_PrecursorSetup a b c d v g
  | F_s_boat_material => λ v, Build_PrecursorSetup a b c d e v
  end.

#[global] Instance PrecursorSetup_dataclass : Dataclass PrecursorSetup := {|
  dc_class := CPrecursorSetup;
  dc_field := PrecursorField;
  dc_fields := [F_moo3_amount; F_s_amount; F_moo3_position; F_s_position;
                F_moo3_boat_material; F_s_boat_material];
  dc_name := λ f,
    match f with
    | F_moo3_amount => "moo3_amount"
    | F_s_amount => "s_amount"
    | F_moo3_position => "moo3_position"
    | F_s_position => "s_position"
    | F_moo3_boat_material => "moo3_boat_material"
    | F_s_boat_material => "s_boat_material"
    end;
  dc_kind := precursor_kind;
  dc_getattr := precursor_getattr;
  dc_setattr := precursor_setattr;
|}.

Record SubstrateInfo : Type := {
  material : string;
  oxide_thickness : float;
  prep_method : string;
  orientation : string;
  size : string;
}.

Definition SubstrateInfo_default : SubstrateInfo := {|
  material := "SiO2/Si";
  oxide_thickness := 300.0;
  prep_method := "piranha";
  orientation := "(100)";
  size := "1cm x 1cm";
|}.

Inductive SubstrateField : Type :=
| F_material | F_oxide_thickness | F_prep_method | F_orientation | F_size.

Definition substrate_kind (f : SubstrateField) : field_kind :=
  match f with F_oxide_thickness => KFloat | _ => KStr end.

Definition substrate_getattr (f : SubstrateField) (s : SubstrateInfo)
  : kind_type (substrate_kind f) :=
  match f with
  | F_material => material s
  | F_oxide_thickness => oxide_thickness s
  | F_prep_method => prep_method s
  | F_orientation => orientation s
  | F_size => size s
  end.

Definition substrate_setattr (f : SubstrateField) (s : SubstrateInfo)
  : kind_type (substrate_kind f) → SubstrateInfo :=
  let 'Build_SubstrateInfo a b c d e := s in
  match f with
  | F_material => λ v, Build_SubstrateInfo v b c d e
  | F_oxide_thickness => λ v, Build_SubstrateInfo a v c d e
  | F_prep_method => λ v, Build_SubstrateInfo a b v d e
  | F_orientation => λ v, Build_SubstrateInfo a b c v e
  | F_size => λ v, Build_SubstrateInfo a b c d v
  end.

#[global] Instance SubstrateInfo_dataclass : Dataclass SubstrateInfo := {|
  dc_class := CSubstrateInfo;
  dc_field := SubstrateField;
  dc_fields := [F_material; F_oxide_thickness; F_prep_method; F_orientation; F_size];
  dc_name := λ f,
    match f with
    | F_material => "material"
    | F_oxide_thickness => "oxide_thickness"
    | F_prep_method => "prep_method"
    | F_orientation => "orientation"
    | F_size => "size"
    end;
  dc_kind := substrate_kind;
  dc_getattr := substrate_getattr;
  dc_setattr := substrate_setattr;
|}.

Record RecipeTemplate : Type := {
  id : string;
  name : string;
  description : string;
  parent_template_id : option string;
  created_at : string;
  modified_at : string;
  temperature : TemperatureProfile;
  gas_flow : GasFlow;
  precursor : PrecursorSetup;
  substrate : SubstrateInfo;
  custom_fields : gmap string pyval;
  tags : list string;
}.

(** [RecipeTemplate(id=..., name=..., description=...)]: the remaining fields
    at their defaults.  [created] and [modified] are what the two
    [datetime.now().isoformat()] factories return; a caller that passes no
    [id] passes what [uuid4()] returns. *)
Definition RecipeTemplate_init (id name description created modified : string)
  : RecipeTemplate := {|
  id := id;
  name := name;
  description := description;
  parent_template_id := None;
  created_at := created;
  modified_at := modified;
  temperature := TemperatureProfile_default;
  gas_flow := GasFlow_default;
  precursor := PrecursorSetup_default;
  substrate := SubstrateInfo_default;
  custom_fields := ∅;
  tags := [];
|}.

(** [template.parent_template_id = parent_id] *)
Definition with_parent (t : RecipeTemplate) (parent : option string) : RecipeTemplate := {|
  id := id t;
  name := name t;
  description := description t;
  parent_template_id := parent;
  created_at := created_at t;
  modified_at := modified_at t;
  temperature := temperature t;
  gas_flow := gas_flow t;
  precursor := precursor t;
  substrate := substrate t;
  custom_fields := custom_fields t;
  tags := tags t;
|}.

(** [update_modified]: [self.modified_at = datetime.now().isoformat()] *)
Definition update_modified (t : RecipeTemplate) (now : string) : RecipeTemplate := {|
  id := id t;
  name := name t;
  description := description t;
  parent_template_id := parent_template_id t;
  created_at := created_at t;
  modified_at := now;
  temperature := temperature t;
  gas_flow := gas_flow t;
  precursor := precursor t;
  substrate := substrate t;
  custom_fields := custom_fields t;
  tags := tags t;
|}.

(** A template seen as a Python object: its instance [__dict__]. *)
Definition reflect (t : RecipeTemplate) : pyval :=
  PObj CRecipeTemplate (list_to_map [
    ("id", PStr (id t));
    ("name", PStr (name t));
    ("description", PStr (description t));
    ("parent_template_id", from_option PStr PNone (parent_template_id t));
    ("created_at", PStr (created_at t));
    ("modified_at", PStr (modified_at t));
    ("temperature", reflect_dataclass (temperature t));
    ("gas_flow", reflect_dataclass (gas_flow t));
    ("precursor", reflect_dataclass (precursor t));
    ("substrate", reflect_dataclass (substrate t));
    ("custom_fields", PDict (custom_fields t));
    ("tags", PList (PStr <$> tags t))
  ]).

End recipe.

(** ** [atomgrowth/models/experiment.py] *)
Module experiment.

Record Experiment : Type := {
  id : string;
  name : string;
  template_id : string;
  created_at : string;
  run_date : option string;
  completed_at : option string;
  status : string;
  overrides : gmap string pyval;
  override_reasons : gmap string string;
  outcome : string;
  notes : string;
  observations : string;
  sample_ids : list string;
  characterization_ids : list string;
  tags : list string;
}.

(** The experiment with its two override maps replaced; the two methods
    below touch nothing else. *)
Definition with_overrides (e : Experiment)
    (ov : gmap string pyval) (reasons : gmap string string) : Experiment := {|
  id := id e;
  name := name e;
  template_id := template_id e;
  created_at := created_at e;
  run_date := run_date e;
  completed_at := completed_at e;
  status := status e;
  overrides := ov;
  override_reasons := reasons;
  outcome := outcome e;
  notes := notes e;
  observations := observations e;
  sample_ids := sample_ids e;
  characterization_ids := characterization_ids e;
  tags := tags e;
|}.

(** [set_override(field_path, value, reason="")] *)
Definition set_override (e : Experiment) (field_path : string) (value : pyval)
    (reason : string) : Experiment :=
  with_overrides e
    (<[field_path := value]> (overrides e))
    (if str_truthy reason then <[field_path := reason]> (override_reasons e)
     else override_reasons e).

(** [remove_override(field_path)]: [pop(field_path, None)] on both maps. *)
Definition remove_override (e : Experiment) (field_path : string) : Experiment :=
  with_overrides e
    (delete field_path (overrides e))
    (delete field_path (override_reasons e)).

(** [is_overridden(field_path)]: [field_path in self.overrides] *)
Definition is_overridden (e : Experiment) (field_path : string) : bool :=
  bool_decide (is_Some (overrides e !! field_path)).

(** [get_override(field_path)]: [self.overrides.get(field_path)] *)
Definition get_override (e : Experiment) (field_path : string) : pyval :=
  default PNone (overrides e !! field_path).

End experiment.

(** ** [atomgrowth/core/template_manager.py] *)
Module template_manager.
Import recipe.

(** [self._templates] *)
Abbreviation store := (list (string * RecipeTemplate)).

Section manager.
Context `{PyRuntime}.

(** *** Field path access *)

(** The loop of [_get_field_value] over the remaining parts. *)
Fixpoint get_field_loop (current : pyval) (parts : list string) : outcome pyval :=
  match parts with
  | [] => Return current
  | part :: rest =>
      if is_None current then Return PNone
      else if py_hasattr current part then
        next ← py_getattr current part;
        get_field_loop next rest
      else
        match current with
        | PDict d => get_field_loop (default PNone (d !! part)) rest
        | _ => Return PNone
        end
  end.

Definition _get_field_value (obj : pyval) (path : string) : outcome pyval :=
  get_field_loop obj (split_dot path).

(** [_set_field_value] mutates the objects it walks through; here each level
    returns its updated self next to the flag.  An attribute stored in the
    instance [__dict__] is written back into it; one found on the type is
    not held by the instance. *)
Definition write_back (current : pyval) (part : string) (child : pyval) : pyval :=
  match current with
  | PObj cls attrs =>
      match attrs !! part with
      | Some _ => PObj cls (<[part := child]> attrs)
      | None => current
      end
  | _ => current
  end.

(** The navigation loop over [parts[:-1]] followed by the assignment to
    [parts[-1]]; [parts[-1]] of an empty list raises [IndexError]. *)
Fixpoint set_field_loop (current : pyval) (parts : list string) (value : pyval)
  : outcome (bool * pyval) :=
  match parts with
  | [] => Raise IndexError
  | [final_part] =>
      if py_hasattr current final_part then
        current' ← py_setattr current final_part value;
        Return (true, current')
      else
        match current with
        | PDict d => Return (true, PDict (<[final_part := value]> d))
        | _ => Return (false, current)
        end
  | part :: rest =>
      if py_hasattr current part then
        child ← py_getattr current part;
        r ← set_field_loop child rest value;
        Return (r.1, write_back current part r.2)
      else
        match current with
        | PDict d =>
            (* if part not in current: current[part] = {} *)
            let child := default (PDict ∅) (d !! part) in
            r ← set_field_loop child rest value;
            Return (r.1, PDict (<[part := r.2]> d))
        | _ => Return (false, current)
        end
  end.

Definition _set_field_value (obj : pyval) (path : string) (value : pyval)
  : outcome (bool * pyval) :=
  set_field_loop obj (split_dot path) value.

(** [f"temperature.{f.name}" for f in fields(TemperatureProfile)] *)
Definition section_paths (S : Type) `{Dataclass S} (prefix : string) : list string :=
  (λ f, prefix +:+ "." +:+ dc_name f) <$> dc_fields.

Definition get_all_field_paths : list string :=
  section_paths TemperatureProfile "temperature"
  ++ section_paths GasFlow "gas_flow"
  ++ section_paths PrecursorSetup "precursor"
  ++ section_paths SubstrateInfo "substrate".

(** *** Merge *)

(** [_merge_dataclass]: both arguments are dataclass instances here, so the
    [is_dataclass] guard passes; [result] starts as a copy of [base] and
    every field of [overlay] is assigned to it ("always use overlay value"). *)
Definition _merge_dataclass {S : Type} `{Dataclass S} (base overlay : S) : S :=
  fold_left (λ result f, dc_setattr f result (dc_getattr f overlay)) dc_fields base.

Definition _merge_templates (base overlay : RecipeTemplate) : RecipeTemplate := {|
  id := id base;
  temperature := _merge_dataclass (temperature base) (temperature overlay);
  gas_flow := _merge_dataclass (gas_flow base) (gas_flow overlay);
  precursor := _merge_dataclass (precursor base) (precursor overlay);
  substrate := _merge_dataclass (substrate base) (substrate overlay);
  (* result.custom_fields.update(overlay.custom_fields) *)
  custom_fields := custom_fields overlay ∪ custom_fields base;
  (* list(set(result.tags) | set(overlay.tags)) *)
  tags := set_union_list (tags base) (tags overlay);
  name := name overlay;
  (* overlay.description or result.description *)
  description :=
    if str_truthy (description overlay) then description overlay else description base;
  parent_template_id := parent_template_id overlay;
  created_at := created_at overlay;
  modified_at := modified_at overlay;
|}.

(** *** The inheritance chain *)

(** The variables of the [while] loop of [get_inheritance_chain]. *)
Record walk : Type := {
  current_id : option string;
  visited : gset string;
  chain : list RecipeTemplate;
}.

(** One pass through the loop: the next variables, or how the loop ends
    (the condition fails, [raise], or [break]). *)
Definition chain_body (s : store) (w : walk) : walk + outcome (list RecipeTemplate) :=
  match current_id w with
  | None => inr (Return (chain w))
  | Some cid =>
      if negb (str_truthy cid) then inr (Return (chain w))
      else if decide (cid ∈ visited w) then inr (Raise CircularInheritance)
      else
        match odict.get s cid with
        | None => inr (Return (chain w))
        | Some template =>
            inl {| current_id := parent_template_id template;
                   visited := {[cid]} ∪ visited w;
                   chain := chain w ++ [template] |}
        end
  end.

Fixpoint chain_loop (fuel : nat) (s : store) (w : walk) : outcome (list RecipeTemplate) :=
  match fuel with
  | 0 => OutOfFuel
  | S fuel' =>
      match chain_body s w with
      | inl w' => chain_loop fuel' s w'
      | inr r => r
      end
  end.

Definition chain_start (template_id : string) : walk :=
  {| current_id := Some template_id; visited := ∅; chain := [] |}.

(** Every pass but the last adds a stored key to [visited], so one pass more
    than there are entries is budget enough. *)
Definition get_inheritance_chain (s : store) (template_id : string)
  : outcome (list RecipeTemplate) :=
  chain_loop (S (length s)) s (chain_start template_id).

(** The upward walk as a relation: one pass that stays in the loop. *)
Definition walk_step (s : store) (w w' : walk) : Prop := chain_body s w = inl w'.

(** The walk from [template_id] comes to an id it has already visited. *)
Definition revisits (s : store) (template_id : string) : Prop :=
  ∃ w cid, rtc (walk_step s) (chain_start template_id) w
           ∧ current_id w = Some cid ∧ str_truthy cid = true ∧ cid ∈ visited w.

(** The keys of the store a walk has not visited yet: the loop's variant. *)
Definition unvisited (s : store) (w : walk) : gset string :=
  list_to_set (odict.keys s) ∖ visited w.

(** How the loop ends: the condition fails, [break], or [raise]. *)
Inductive walk_end (s : store) (w : walk) : outcome (list RecipeTemplate) → Prop :=
| end_no_parent :
    opt_truthy (current_id w) = false → walk_end s w (Return (chain w))
| end_unknown cid :
    current_id w = Some cid → str_truthy cid = true → cid ∉ visited w →
    odict.get s cid = None → walk_end s w (Return (chain w))
| end_revisit cid :
    current_id w = Some cid → str_truthy cid = true → cid ∈ visited w →
    walk_end s w (Raise CircularInheritance).

(** What holds of the loop variables after at least one pass: the chain
    starts with the template stored under the queried id, and the current id
    is the parent reference of the chain's last element. *)
Definition walk_inv (s : store) (template_id : string) (w : walk) : Prop :=
  ∃ t0 rest tl,
    chain w = t0 :: rest ∧ odict.get s template_id = Some t0
    ∧ str_truthy template_id = true
    ∧ last (chain w) = Some tl ∧ current_id w = parent_template_id tl.

(** The id the walk looks at in its [n]-th pass when no earlier pass ends
    it: the queried id, then the parent reference of the template stored
    under the previous id. *)
Fixpoint ancestor_id (s : store) (template_id : string) (n : nat) : option string :=
  match n with
  | 0 => Some template_id
  | S n' =>
      match ancestor_id s template_id n' with
      | Some cid =>
          if str_truthy cid then
            match odict.get s cid with
            | Some template => parent_template_id template
            | None => None
            end
          else None
      | None => None
      end
  end.

(** The parent references lead from [template_id] to the same id twice. *)
Definition parent_cycle (s : store) (template_id : string) : Prop :=
  ∃ i j cid, (i < j)%nat
             ∧ ancestor_id s template_id i = Some cid
             ∧ ancestor_id s template_id j = Some cid
             ∧ str_truthy cid = true.

(** *** Cycle detection *)

Fixpoint cycle_loop (fuel : nat) (s : store) (current : option string)
    (seen : gset string) : outcome bool :=
  match fuel with
  | 0 => OutOfFuel
  | S fuel' =>
      match current with
      | None => Return false
      | Some cid =>
          if negb (str_truthy cid) then Return false
          else if decide (cid ∈ seen) then Return true
          else
            match odict.get s cid with
            | None => Return false
            | Some template =>
                cycle_loop fuel' s (parent_template_id template) ({[cid]} ∪ seen)
            end
      end
  end.

Definition _would_create_cycle (s : store) (template_id new_parent_id : string)
  : outcome bool :=
  cycle_loop (S (length s)) s (Some new_parent_id) {[template_id]}.

(** *** CRUD

    A mutating operation returns the store it leaves behind next to its
    outcome, so that a raised error shows the store it leaves. *)

(** [uuid], [created] and [modified] are what [uuid4()] and the two
    [datetime.now().isoformat()] calls of the constructor return. *)
Definition create_template (s : store) (uuid created modified : string)
    (name : string) (parent_id : option string) (description : string)
  : store * outcome RecipeTemplate :=
  let template := RecipeTemplate_init uuid name description created modified in
  match parent_id with
  | Some p =>
      if negb (str_truthy p) then (odict.set s (id template) template, Return template)
      else if negb (odict.contains s p) then (s, Raise (NotFound p))
      else
        match _would_create_cycle s (id template) p with
        | Return true => (s, Raise CycleDetected)
        | Return false =>
            let template := with_parent template (Some p) in
            (odict.set s (id template) template, Return template)
        | Raise e => (s, Raise e)
        | OutOfFuel => (s, OutOfFuel)
        end
  | None => (odict.set s (id template) template, Return template)
  end.

Definition get_template (s : store) (template_id : string) : option RecipeTemplate :=
  odict.get s template_id.

(** [now] is what [datetime.now().isoformat()] returns in [update_modified]. *)
Definition update_template (s : store) (template : RecipeTemplate) (now : string)
  : store * outcome unit :=
  if negb (odict.contains s (id template)) then (s, Raise (NotFound (id template)))
  else
    let template := update_modified template now in
    (odict.set s (id template) template, Return tt).

Definition delete_template (s : store) (template_id : string) : store * outcome bool :=
  if negb (odict.contains s template_id) then (s, Return false)
  else
    match List.find (λ t, bool_decide (parent_template_id t = Some template_id))
                    (odict.values s) with
    | Some t => (s, Raise (HasChildren (name t)))
    | None => (odict.del s template_id, Return true)
    end.

Definition list_templates (s : store) : list RecipeTemplate := odict.values s.

Definition get_root_templates (s : store) : list RecipeTemplate :=
  filter (λ t, parent_template_id t = None) (odict.values s).

Definition get_children (s : store) (template_id : string) : list RecipeTemplate :=
  filter (λ t, parent_template_id t = Some template_id) (odict.values s).

(** *** Inheritance resolution *)

(** [created] and [modified] are the timestamps the constructor of
    [resolved] draws. *)
Definition resolve_template (s : store) (created modified : string)
    (template_id : string) : outcome RecipeTemplate :=
  match odict.get s template_id with
  | None => Raise (NotFound template_id)
  | Some stored =>
      chain ← get_inheritance_chain s template_id;
      let resolved := RecipeTemplate_init template_id (name stored) "" created modified in
      (* for template in reversed(chain): resolved = merge(resolved, template) *)
      Return (fold_left _merge_templates (rev chain) resolved)
  end.

(** The [for] loop of [get_effective_value]: the first template of the chain
    whose value at the path is not [None]. *)
Fixpoint effective_loop (chain : list RecipeTemplate) (field_path : string)
  : outcome (option (pyval * option string)) :=
  match chain with
  | [] => Return None
  | template :: rest =>
      value ← _get_field_value (reflect template) field_path;
      if is_None value then effective_loop rest field_path
      else Return (Some (value, Some (id template)))
  end.

(** [uuid], [created], [modified]: what the constructor of
    [default_template] draws. *)
Definition default_template (uuid created modified : string) : RecipeTemplate :=
  RecipeTemplate_init uuid "" "" created modified.

Definition get_effective_value (s : store) (uuid created modified : string)
    (template_id field_path : string) : outcome (pyval * option string) :=
  chain ← get_inheritance_chain s template_id;
  found ← effective_loop chain field_path;
  match found with
  | Some r => Return r
  | None =>
      default_value ←
        _get_field_value (reflect (default_template uuid created modified)) field_path;
      Return (default_value, None)
  end.

End manager.
End template_manager.

(** ** [atomgrowth/ui/views/experiment_editor.py]

    The effective value of a parameter of an experiment, as
    [load_experiment] computes it for each field: the value read from the
    resolved template, replaced by the override when there is one. *)
Module experiment_editor.

Definition effective_value `{PyRuntime} (e : experiment.Experiment)
    (resolved : recipe.RecipeTemplate) (field_path : string) : outcome pyval :=
  inherited ← template_manager._get_field_value (recipe.reflect resolved) field_path;
  match experiment.overrides e !! field_path with
  | Some v => Return v
  | None => Return inherited
  end.

End experiment_editor.

(** ** Comparison of values

    [v1 != v2] is the runtime's; what is fixed here is what it does on two
    floats (IEEE inequality, so a NaN differs from itself) and on two
    strings. *)
Class PyCompare : Type := {
  py_ne : pyval → pyval → bool;
  py_ne_float : ∀ a b, py_ne (PFloat a) (PFloat b) = negb (PrimFloat.eqb a b);
  py_ne_str : ∀ a b, py_ne (PStr a) (PStr b) = negb (bool_decide (a = b));
}.

(** ** [diff_templates] of [template_manager.py] *)
Module template_diff.
Import recipe template_manager.

(** An entry [{"field_path": ..., "value_1": ..., "value_2": ...}]. *)
Record diff_entry : Type := {
  field_path : string;
  value_1 : pyval;
  value_2 : pyval;
}.

Section diff.
Context `{PyRuntime} `{PyCompare}.

(** The loop over [get_all_field_paths()]. *)
Fixpoint diff_loop (t1 t2 : RecipeTemplate) (paths : list string)
  : outcome (list diff_entry) :=
  match paths with
  | [] => Return []
  | path :: rest =>
      v1 ← _get_field_value (reflect t1) path;
      v2 ← _get_field_value (reflect t2) path;
      diffs ← diff_loop t1 t2 rest;
      Return (if py_ne v1 v2
              then {| field_path := path; value_1 := v1; value_2 := v2 |} :: diffs
              else diffs)
  end.

(** [created_i], [modified_i]: the timestamps the two resolutions draw. *)
Definition diff_templates (s : store) (created_1 modified_1 created_2 modified_2 : string)
    (template_id_1 template_id_2 : string) : outcome (list diff_entry) :=
  t1 ← resolve_template s created_1 modified_1 template_id_1;
  t2 ← resolve_template s created_2 modified_2 template_id_2;
  diff_loop t1 t2 get_all_field_paths.

(** The entry of a path for two templates by their own stored values: none
    when the values do not differ. *)
Definition own_diff_entry (a b : RecipeTemplate) (path : string) : option diff_entry :=
  match _get_field_value (reflect a) path, _get_field_value (reflect b) path with
  | Return v1, Return v2 =>
      if py_ne v1 v2
      then Some {| field_path := path; value_1 := v1; value_2 := v2 |}
      else None
  | _, _ => None
  end.

End diff.
End template_diff.

(** ** [to_dict] and [from_dict]

    The dictionaries that go to and come from JSON, as [str]-keyed maps of
    values.  [from_dict] puts whatever the dictionary holds into the fields;
    the records here hold values of the declared types only, so the model
    of [from_dict] gives [None] when a value it reads does not have the
    declared type of its field (Python then builds an instance with a field
    of another type, or fails on [None.get]). *)
Module persistence.

Definition as_str (v : pyval) : option string :=
  match v with PStr x => Some x | _ => None end.

Definition as_float (v : pyval) : option float :=
  match v with PFloat x => Some x | _ => None end.

(** [Optional[str]] *)
Definition as_opt_str (v : pyval) : option (option string) :=
  match v with
  | PNone => Some None
  | PStr x => Some (Some x)
  | _ => None
  end.

Definition as_dict (v : pyval) : option (gmap string pyval) :=
  match v with PDict d => Some d | _ => None end.

(** [list[str]] *)
Definition as_str_list (v : pyval) : option (list string) :=
  match v with PList l => mapM as_str l | _ => None end.

(** [dict[str, str]] *)
Definition as_str_map (v : pyval) : option (gmap string string) :=
  match v with
  | PDict d =>
      if decide (map_Forall (λ _ x, is_Some (as_str x)) d)
      then Some (omap as_str d) else None
  | _ => None
  end.

Definition as_kind (k : field_kind) : pyval → option (kind_type k) :=
  match k with KFloat => as_float | KStr => as_str end.

(** [data.get(key, default)] *)
Definition get_or (data : gmap string pyval) (key : string) (default : pyval) : pyval :=
  match data !! key with Some v => v | None => default end.

(** The dictionary of a parameter section: one entry per field. *)
Definition section_to_dict {S : Type} `{Dataclass S} (s : S) : gmap string pyval :=
  list_to_map ((λ f, (dc_name f, kind_val (dc_kind f) (dc_getattr f s))) <$> dc_fields).

(** The section built from [data.get(name, default)] for each field; the
    defaults that [from_dict] writes out are those of the dataclass. *)
Definition section_from_dict {S : Type} `{Dataclass S} (defaults : S)
    (data : gmap string pyval) : option S :=
  foldl (λ acc f,
           s ← acc;
           v ← as_kind (dc_kind f)
                 (get_or data (dc_name f) (kind_val (dc_kind f) (dc_getattr f defaults)));
           Some (dc_setattr f s v))
        (Some defaults) dc_fields.

(** [RecipeTemplate.to_dict] *)
Definition template_to_dict (t : recipe.RecipeTemplate) : gmap string pyval :=
  list_to_map [
    ("id", PStr (recipe.id t));
    ("name", PStr (recipe.name t));
    ("description", PStr (recipe.description t));
    ("parent_template_id", from_option PStr PNone (recipe.parent_template_id t));
    ("created_at", PStr (recipe.created_at t));
    ("modified_at", PStr (recipe.modified_at t));
    ("temperature", PDict (section_to_dict (recipe.temperature t)));
    ("gas_flow", PDict (section_to_dict (recipe.gas_flow t)));
    ("precursor", PDict (section_to_dict (recipe.precursor t)));
    ("substrate", PDict (section_to_dict (recipe.substrate t)));
    ("custom_fields", PDict (recipe.custom_fields t));
    ("tags", PList (PStr <$> recipe.tags t))
  ].

(** [RecipeTemplate.from_dict]; [uuid] and [now] are what [uuid4()] and
    [datetime.now().isoformat()] return for the defaults of [id],
    [created_at] and [modified_at]. *)
Definition template_from_dict (uuid now_created now_modified : string)
    (data : gmap string pyval) : option recipe.RecipeTemplate :=
  temp_data ← as_dict (get_or data "temperature" (PDict ∅));
  gas_data ← as_dict (get_or data "gas_flow" (PDict ∅));
  precursor_data ← as_dict (get_or data "precursor" (PDict ∅));
  substrate_data ← as_dict (get_or data "substrate" (PDict ∅));
  id ← as_str (get_or data "id" (PStr uuid));
  name ← as_str (get_or data "name" (PStr ""));
  description ← as_str (get_or data "description" (PStr ""));
  parent_template_id ← as_opt_str (get_or data "parent_template_id" PNone);
  created_at ← as_str (get_or data "created_at" (PStr now_created));
  modified_at ← as_str (get_or data "modified_at" (PStr now_modified));
  temperature ← section_from_dict recipe.TemperatureProfile_default temp_data;
  gas_flow ← section_from_dict recipe.GasFlow_default gas_data;
  precursor ← section_from_dict recipe.PrecursorSetup_default precursor_data;
  substrate ← section_from_dict recipe.SubstrateInfo_default substrate_data;
  custom_fields ← as_dict (get_or data "custom_fields" (PDict ∅));
  tags ← as_str_list (get_or data "tags" (PList []));
  Some {|
    recipe.id := id;
    recipe.name := name;
    recipe.description := description;
    recipe.parent_template_id := parent_template_id;
    recipe.created_at := created_at;
    recipe.modified_at := modified_at;
    recipe.temperature := temperature;
    recipe.gas_flow := gas_flow;
    recipe.precursor := precursor;
    recipe.substrate := substrate;
    recipe.custom_fields := custom_fields;
    recipe.tags := tags;
  |}.

(** [Experiment.to_dict] *)
Definition experiment_to_dict (e : experiment.Experiment) : gmap string pyval :=
  list_to_map [
    ("id", PStr (experiment.id e));
    ("name", PStr (experiment.name e));
    ("template_id", PStr (experiment.template_id e));
    ("created_at", PStr (experiment.created_at e));
    ("run_date", from_option PStr PNone (experiment.run_date e));
    ("completed_at", from_option PStr PNone (experiment.completed_at e));
    ("status", PStr (experiment.status e));
    ("overrides", PDict (experiment.overrides e));
    ("override_reasons", PDict (PStr <$> experiment.override_reasons e));
    ("outcome", PStr (experiment.outcome e));
    ("notes", PStr (experiment.notes e));
    ("observations", PStr (experiment.observations e));
    ("sample_ids", PList (PStr <$> experiment.sample_ids e));
    ("characterization_ids", PList (PStr <$> experiment.characterization_ids e));
    ("tags", PList (PStr <$> experiment.tags e))
  ].

(** [Experiment.from_dict] *)
Definition experiment_from_dict (uuid now : string)
    (data : gmap string pyval) : option experiment.Experiment :=
  id ← as_str (get_or data "id" (PStr uuid));
  name ← as_str (get_or data "name" (PStr ""));
  template_id ← as_str (get_or data "template_id" (PStr ""));
  created_at ← as_str (get_or data "created_at" (PStr now));
  run_date ← as_opt_str (get_or data "run_date" PNone);
  completed_at ← as_opt_str (get_or data "completed_at" PNone);
  status ← as_str (get_or data "status" (PStr "planned"));
  overrides ← as_dict (get_or data "overrides" (PDict ∅));
  override_reasons ← as_str_map (get_or data "override_reasons" (PDict ∅));
  outcome ← as_str (get_or data "outcome" (PStr "unknown"));
  notes ← as_str (get_or data "notes" (PStr ""));
  observations ← as_str (get_or data "observations" (PStr ""));
  sample_ids ← as_str_list (get_or data "sample_ids" (PList []));
  characterization_ids ← as_str_list (get_or data "characterization_ids" (PList []));
  tags ← as_str_list (get_or data "tags" (PList []));
  Some {|
    experiment.id := id;
    experiment.name := name;
    experiment.template_id := template_id;
    experiment.created_at := created_at;
    experiment.run_date := run_date;
    experiment.completed_at := completed_at;
    experiment.status := status;
    experiment.overrides := overrides;
    experiment.override_reasons := override_reasons;
    experiment.outcome := outcome;
    experiment.notes := notes;
    experiment.observations := observations;
    experiment.sample_ids := sample_ids;
    experiment.characterization_ids := characterization_ids;
    experiment.tags := tags;
  |}.

End persistence.

(** ** [_on_param_changed] of [experiment_editor.py]

    What the editor does to the experiment it shows when a parameter field
    reports a new value: no override for [None] or for a value equal to the
    inherited one, an override otherwise; nothing when the experiment's
    template is not stored.  [created] and [modified] are the timestamps
    the resolution draws. *)
Module param_changes.

Definition _on_param_changed `{PyRuntime} `{PyCompare}
    (s : template_manager.store) (created modified : string)
    (e : experiment.Experiment) (field_path : string) (value : pyval)
  : outcome experiment.Experiment :=
  if is_None value then Return (experiment.remove_override e field_path)
  else
    match template_manager.get_template s (experiment.template_id e) with
    | None => Return e
    | Some template =>
        resolved ← template_manager.resolve_template s created modified
                     (recipe.id template);
        inherited ← template_manager._get_field_value (recipe.reflect resolved) field_path;
        if py_ne value inherited
        then Return (experiment.set_override e field_path value "")
        else Return (experiment.remove_override e field_path)
    end.

End param_changes.

(** [".".join(parts)], the inverse of [split_dot]. *)
Fixpoint join_dot (parts : list string) : string :=
  match parts with
  | [] => ""
  | [part] => part
  | part :: rest => part +:+ "." +:+ join_dot rest
  end.

(** ** Field updates of a template

    [template.custom_fields = custom_fields], for stating what the accessor
    leaves behind. *)
Definition with_custom_fields (t : recipe.RecipeTemplate)
    (custom_fields : gmap string pyval) : recipe.RecipeTemplate := {|
  recipe.id := recipe.id t;
  recipe.name := recipe.name t;
  recipe.description := recipe.description t;
  recipe.parent_template_id := recipe.parent_template_id t;
  recipe.created_at := recipe.created_at t;
  recipe.modified_at := recipe.modified_at t;
  recipe.temperature := recipe.temperature t;
  recipe.gas_flow := recipe.gas_flow t;
  recipe.precursor := recipe.precursor t;
  recipe.substrate := recipe.substrate t;
  recipe.custom_fields := custom_fields;
  recipe.tags := recipe.tags t;
|}.

(** ** Invariants of the template store

    What [create_template] and [delete_template] check for, as predicates on
    [self._templates]. *)
Module forest.
Import recipe template_manager.

(** Every entry sits under the id of its template, and under no key twice. *)
Definition well_keyed (s : store) : Prop :=
  NoDup (odict.keys s) ∧ ∀ k t, (k, t) ∈ s → k = id t.

(** Every non-empty parent reference names a stored template. *)
Definition parent_closed (s : store) : Prop :=
  ∀ t p, t ∈ odict.values s → parent_template_id t = Some p →
         str_truthy p = true → is_Some (odict.get s p).

(** No chain walk fails. *)
Definition acyclic (s : store) : Prop :=
  ∀ template_id, get_inheritance_chain s template_id ≠ Raise CircularInheritance.

Definition is_forest (s : store) : Prop :=
  well_keyed s ∧ parent_closed s ∧ acyclic s.

(** The stores that [create_template], given non-empty ids that are not in
    use, and [delete_template] build from the empty store. *)
Inductive built : store → Prop :=
| built_empty : built []
| built_create s uuid created modified name parent_id description :
    built s → uuid ≠ "" → odict.get s uuid = None →
    built (create_template s uuid created modified name parent_id description).1
| built_delete s template_id :
    built s → built (delete_template s template_id).1.

End forest.

(** ** Sample data

    A runtime and stores for the concrete cases below.  [cpython_fragment]
    is CPython cut down to what the cases use: the method [upper] that the
    type [str] supplies, no data descriptors, and sets listed in the order of
    first insertion. *)

Definition cpython_fragment : PyRuntime := {|
  type_attr := λ v name,
    match v with
    | PStr _ => if decide (name = "upper") then Some (POpaque "str.upper") else None
    | _ => None
    end;
  type_setattr := λ _ _ _, None;
  set_union_list := λ a b, remove_dups (a ++ b);
  set_union_list_NoDup := λ a b, NoDup_remove_dups (a ++ b);
  set_union_list_elem := λ a b x,
    iff_trans (elem_of_remove_dups (a ++ b) x) (elem_of_app a b x);
|}.

(** A comparison for the concrete cases, which compare floats with floats
    and strings with strings; the cases they do not reach are filled in with
    [true], [None] against [None] with [false]. *)
Definition py_compare_fragment : PyCompare := {|
  py_ne := λ a b,
    match a, b with
    | PFloat x, PFloat y => negb (PrimFloat.eqb x y)
    | PStr x, PStr y => negb (bool_decide (x = y))
    | PNone, PNone => false
    | _, _ => true
    end;
  py_ne_float := λ a b, eq_refl;
  py_ne_str := λ a b, eq_refl;
|}.

Module samples.
Import recipe template_manager.

(** A fresh template as [create_template] builds it, at a fixed time. *)
Definition fresh (id name : string) : RecipeTemplate :=
  RecipeTemplate_init id name "" "2025-01-01T00:00:00" "2025-01-01T00:00:00".

(** [_set_field_value(t, "temperature.peak_temp", v)] on a template. *)
Definition with_peak_temp (t : RecipeTemplate) (v : float) : RecipeTemplate := {|
  id := id t;
  name := name t;
  description := description t;
  parent_template_id := parent_template_id t;
  created_at := created_at t;
  modified_at := modified_at t;
  temperature := temperature_setattr F_peak_temp (temperature t) v;
  gas_flow := gas_flow t;
  precursor := precursor t;
  substrate := substrate t;
  custom_fields := custom_fields t;
  tags := tags t;
|}.

(** The chain A <- B <- C: A stores [peak_temp = 700.0], B and C keep the
    default. *)
Definition template_A : RecipeTemplate := with_peak_temp (fresh "A" "base") 700.0.
Definition template_B : RecipeTemplate := with_parent (fresh "B" "middle") (Some "A").
Definition template_C : RecipeTemplate := with_parent (fresh "C" "leaf") (Some "B").

Definition store_ABC : store :=
  [("A", template_A); ("B", template_B); ("C", template_C)].

(** [t.tags = tags] *)
Definition with_tags (t : RecipeTemplate) (tags : list string) : RecipeTemplate := {|
  id := id t;
  name := name t;
  description := description t;
  parent_template_id := parent_template_id t;
  created_at := created_at t;
  modified_at := modified_at t;
  temperature := temperature t;
  gas_flow := gas_flow t;
  precursor := precursor t;
  substrate := substrate t;
  custom_fields := custom_fields t;
  tags := tags;
|}.

(** A root template that carries the same tag twice. *)
Definition template_dup : RecipeTemplate := with_tags (fresh "T" "tagged") ["x"; "x"].
Definition store_dup : store := [("T", template_dup)].

(** A described base and an overlay with the empty description. *)
Definition base_described : RecipeTemplate :=
  RecipeTemplate_init "base" "Base" "base notes"
    "2025-01-01T00:00:00" "2025-01-01T00:00:00".
Definition overlay_plain : RecipeTemplate := fresh "leaf" "Leaf".

(** Stores built through the operations of the manager.  [store_A]: A is
    created.  [store_dangling]: A is then updated with a parent id nobody
    holds.  [store_AB]: A, then B with parent A.  [store_cycle]: A is then
    updated with parent B. *)
Definition store_A : store :=
  (create_template [] "A" "2025-01-01T00:00:00" "2025-01-01T00:00:00" "base" None "").1.

Definition store_dangling : store :=
  (update_template store_A (with_parent (fresh "A" "base") (Some "ghost"))
     "2025-01-02T00:00:00").1.

Definition dangling_A : RecipeTemplate :=
  update_modified (with_parent (fresh "A" "base") (Some "ghost")) "2025-01-02T00:00:00".

Definition store_AB : store :=
  (create_template store_A "B" "2025-01-01T00:00:00" "2025-01-01T00:00:00"
     "middle" (Some "A") "").1.

Definition store_cycle : store :=
  (update_template store_AB (with_parent (fresh "A" "base") (Some "B"))
     "2025-01-02T00:00:00").1.

(** What [store_cycle] holds under "A". *)
Definition cyclic_A : RecipeTemplate :=
  update_modified (with_parent (fresh "A" "base") (Some "B")) "2025-01-02T00:00:00".

(** A planned experiment on template C, without overrides. *)
Definition experiment_1 : experiment.Experiment := {|
  experiment.id := "E1";
  experiment.name := "run 1";
  experiment.template_id := "C";
  experiment.created_at := "2025-01-03T00:00:00";
  experiment.run_date := None;
  experiment.completed_at := None;
  experiment.status := "planned";
  experiment.overrides := ∅;
  experiment.override_reasons := ∅;
  experiment.outcome := "unknown";
  experiment.notes := "";
  experiment.observations := "";
  experiment.sample_ids := [];
  experiment.characterization_ids := [];
  experiment.tags := [];
|}.

End samples.

(** * Properties *)

(** ** Ordered dictionaries *)
Section odict_facts.
Context {V : Type}.
Implicit Types (d : list (string * V)) (k : string) (v : V).

Lemma odict_get_Some_elem d k v : odict.get d k = Some v → (k, v) ∈ d.
Proof.
  induction d as [|[k' v'] d IH]; simpl; [done|].
  case_decide as Hk.
  - intros [= ->]. subst. left.
  - intros Hg. right. by apply IH.
Qed.

Lemma odict_get_Some_key d k v : odict.get d k = Some v → k ∈ odict.keys d.
Proof.
  intros Hg. apply odict_get_Some_elem in Hg.
  unfold odict.keys. apply list_elem_of_fmap. by exists (k, v).
Qed.

Lemma odict_get_Some_value d k v : odict.get d k = Some v → v ∈ odict.values d.
Proof.
  intros Hg. apply odict_get_Some_elem in Hg.
  unfold odict.values. apply list_elem_of_fmap. by exists (k, v).
Qed.

Lemma odict_get_set_eq d k v : odict.get (odict.set d k v) k = Some v.
Proof.
  induction d as [|[k' v'] d IH]; simpl.
  - by rewrite decide_True.
  - case_decide; simpl; [by rewrite decide_True | by rewrite decide_False].
Qed.

Lemma odict_get_set_ne d k k' v : k ≠ k' → odict.get (odict.set d k v) k' = odict.get d k'.
Proof.
  intros Hne. induction d as [|[k0 v0] d IH]; simpl.
  - by rewrite decide_False.
  - case_decide as Hk; simpl.
    + subst k0. by rewrite !decide_False.
    + case_decide; [done | apply IH].
Qed.

Lemma odict_get_del_eq d k : odict.get (odict.del d k) k = None.
Proof.
  unfold odict.del. induction d as [|[k0 v0] d IH]; [done|].
  destruct (decide (k0 = k)) as [->|Hk].
  - by rewrite filter_cons_False by (simpl; auto).
  - rewrite filter_cons_True by done. simpl. by rewrite decide_False.
Qed.

Lemma odict_get_del_ne d k k' : k ≠ k' → odict.get (odict.del d k) k' = odict.get d k'.
Proof.
  intros Hne. unfold odict.del. induction d as [|[k0 v0] d IH]; [done|].
  destruct (decide (k0 = k)) as [->|Hk].
  - rewrite filter_cons_False by (simpl; auto). simpl. by rewrite decide_False.
  - rewrite filter_cons_True by done. simpl. by rewrite IH.
Qed.

Lemma odict_contains_spec d k : odict.contains d k = true ↔ is_Some (odict.get d k).
Proof.
  unfold odict.contains. destruct (odict.get d k); split; (done || eauto || by intros [? ?]).
Qed.

Lemma odict_keys_size d :
  (size (list_to_set (C:=gset string) (odict.keys d)) ≤ length d)%nat.
Proof.
  unfold odict.keys. induction d as [|[k v] d IH]; csimpl.
  - done.
  - rewrite size_union_alt, size_singleton.
    assert (list_to_set (C:=gset string) d.*1 ∖ {[k]} ⊆ list_to_set d.*1) as Hsub
      by set_solver.
    apply subseteq_size in Hsub. lia.
Qed.
End odict_facts.

(** ** The inheritance chain walk *)
Section chain_walk.
Import template_manager.
Implicit Types (s : store) (w : walk).

Lemma chain_body_inl s w w' :
  chain_body s w = inl w' →
  ∃ cid template,
    current_id w = Some cid ∧ str_truthy cid = true ∧ (cid ∉ visited w)
    ∧ odict.get s cid = Some template
    ∧ w' = {| current_id := recipe.parent_template_id template;
              visited := {[cid]} ∪ visited w;
              chain := chain w ++ [template] |}.
Proof.
  unfold chain_body. destruct (current_id w) as [cid|]; [|done].
  destruct (str_truthy cid) eqn:Ht; simpl; [|done].
  case_decide as Hv; [done|].
  destruct (odict.get s cid) as [template|] eqn:Hg; [|done].
  intros [= <-]. by exists cid, template.
Qed.

Lemma chain_body_inr s w r : chain_body s w = inr r ↔ walk_end s w r.
Proof.
  unfold chain_body. split.
  - destruct (current_id w) as [cid|] eqn:Hc.
    + destruct (str_truthy cid) eqn:Ht; simpl.
      * case_decide as Hv.
        -- intros [= <-]. by eapply end_revisit.
        -- destruct (odict.get s cid) eqn:Hg; [done|].
           intros [= <-]. by eapply end_unknown.
      * intros [= <-]. apply end_no_parent. by rewrite Hc.
    + intros [= <-]. apply end_no_parent. by rewrite Hc.
  - intros [Hf|cid Hc Ht Hv Hg|cid Hc Ht Hv].
    + destruct (current_id w) as [cid|]; [|done].
      simpl in Hf. by rewrite Hf.
    + rewrite Hc, Ht. simpl. rewrite decide_False by done. by rewrite Hg.
    + rewrite Hc, Ht. simpl. by rewrite decide_True.
Qed.

Lemma walk_step_unvisited s w w' :
  walk_step s w w' → (size (unvisited s w') < size (unvisited s w))%nat.
Proof.
  intros (cid & template & Hc & Ht & Hv & Hg & ->)%chain_body_inl.
  apply subset_size. unfold unvisited. simpl.
  apply odict_get_Some_key in Hg.
  assert (cid ∈ list_to_set (C:=gset string) (odict.keys s)) by by apply elem_of_list_to_set.
  set_solver.
Qed.

(** With a budget above the variant the loop reaches its end, along the
    steps of the walk. *)
Lemma chain_loop_run s fuel w :
  (size (unvisited s w) < fuel)%nat →
  ∃ w' r, rtc (walk_step s) w w' ∧ walk_end s w' r ∧ chain_loop fuel s w = r.
Proof.
  revert w. induction fuel as [|fuel IH]; intros w Hlt; [lia|].
  simpl. destruct (chain_body s w) as [w1|r] eqn:Hb.
  - destruct (IH w1) as (w' & r & Hrtc & Hend & Hloop).
    { apply walk_step_unvisited in Hb. lia. }
    exists w', r. split_and!; [|done..]. by eapply rtc_l.
  - exists w, r. split_and!; [done| |done]. by apply chain_body_inr.
Qed.

Lemma walk_step_deterministic s w w1 w2 :
  walk_step s w w1 → walk_step s w w2 → w1 = w2.
Proof. unfold walk_step. congruence. Qed.

Lemma walk_end_no_step s w r w' : walk_end s w r → ¬ walk_step s w w'.
Proof. intros Hend%chain_body_inr. unfold walk_step. congruence. Qed.

Lemma walk_end_deterministic s w r1 r2 : walk_end s w r1 → walk_end s w r2 → r1 = r2.
Proof. intros H1%chain_body_inr H2%chain_body_inr. congruence. Qed.

(** A walk has one end. *)
Lemma walk_end_unique s w w1 w2 r1 r2 :
  rtc (walk_step s) w w1 → walk_end s w1 r1 →
  rtc (walk_step s) w w2 → walk_end s w2 r2 →
  w1 = w2 ∧ r1 = r2.
Proof.
  intros Hrtc1. revert w2. induction Hrtc1 as [w|w wa w1 Hstep Hrtc1 IH];
    intros w2 Hend1 Hrtc2 Hend2.
  - destruct (rtc_inv _ _ Hrtc2) as [->|(wb & Hstep & _)].
    + split; [done|]. by eapply walk_end_deterministic.
    + by destruct (walk_end_no_step _ _ _ _ Hend1 Hstep).
  - destruct (rtc_inv _ _ Hrtc2) as [->|(wb & Hstep2 & Hrtc2')].
    + by destruct (walk_end_no_step _ _ _ _ Hend2 Hstep).
    + rewrite (walk_step_deterministic _ _ _ _ Hstep2 Hstep) in Hrtc2'. by apply IH.
Qed.

Lemma chain_start_unvisited s template_id :
  (size (unvisited s (chain_start template_id)) < S (length s))%nat.
Proof.
  unfold unvisited, chain_start. simpl.
  pose proof (odict_keys_size s) as Hle.
  assert (list_to_set (C:=gset string) (odict.keys s) ∖ ∅ ⊆ list_to_set (odict.keys s))
    as Hsub%subseteq_size by apply subseteq_difference_l, reflexivity.
  lia.
Qed.

(** The budget of [get_inheritance_chain] is enough, and a larger one
    changes nothing. *)
Lemma get_inheritance_chain_run s template_id :
  ∃ w r, rtc (walk_step s) (chain_start template_id) w ∧ walk_end s w r
         ∧ get_inheritance_chain s template_id = r
         ∧ ∀ fuel, (length s < fuel)%nat →
             chain_loop fuel s (chain_start template_id) = r.
Proof.
  destruct (chain_loop_run s (S (length s)) (chain_start template_id))
    as (w & r & Hrtc & Hend & Hloop); [apply chain_start_unvisited|].
  exists w, r. split_and!; [done..|].
  intros fuel Hfuel.
  destruct (chain_loop_run s fuel (chain_start template_id))
    as (w2 & r2 & Hrtc2 & Hend2 & Hloop2).
  { pose proof (chain_start_unvisited s template_id). lia. }
  rewrite Hloop2. by destruct (walk_end_unique _ _ _ _ _ _ Hrtc2 Hend2 Hrtc Hend).
Qed.
End chain_walk.

(** ** Cycles of parent references *)
Section cycles.
Import template_manager.
Implicit Types (s : store) (w : walk).

(** After [n] passes the current id is the [n]-th ancestor id and the
    visited ids are the ancestor ids before it. *)
Lemma nsteps_walk_ancestors s template_id n w :
  nsteps (walk_step s) n (chain_start template_id) w →
  current_id w = ancestor_id s template_id n
  ∧ ∀ x, x ∈ visited w ↔ ∃ k, (k < n)%nat ∧ ancestor_id s template_id k = Some x.
Proof.
  revert w. induction n as [|n IH]; intros w Hn.
  - inversion Hn; subst. simpl. split; [done|].
    intros x. split; [set_solver|]. intros (k & ? & _). lia.
  - apply nsteps_inv_r in Hn as (y & Hn & Hstep).
    destruct (IH y Hn) as [Hcur Hvis].
    apply chain_body_inl in Hstep as (cid & template & Hc & Ht & Hv & Hg & ->).
    simpl. rewrite <- Hcur, Hc, Ht, Hg. split; [done|].
    intros x. rewrite elem_of_union, elem_of_singleton, Hvis. split.
    + intros [->|(k & Hk & Hak)].
      * exists n. split; [lia|]. by rewrite <- Hcur.
      * exists k. split; [lia|done].
    + intros (k & Hk & Hak). destruct (decide (k = n)) as [->|Hne].
      * left. rewrite <- Hcur, Hc in Hak. by injection Hak.
      * right. exists k. split; [lia|done].
Qed.

Lemma ancestor_id_None_after s template_id n m :
  ancestor_id s template_id n = None → (n ≤ m)%nat → ancestor_id s template_id m = None.
Proof.
  intros Hn Hle. induction Hle as [|m Hle IH]; [done|]. simpl. by rewrite IH.
Qed.

(** A pass that stays in the loop looks at an id no earlier pass looked at. *)
Lemma walk_passes_distinct s template_id n w i j cid :
  nsteps (walk_step s) n (chain_start template_id) w →
  (i < j)%nat → (j < n)%nat →
  ancestor_id s template_id i = Some cid →
  ancestor_id s template_id j = Some cid → False.
Proof.
  intros Hn Hij Hjn Hi Hj.
  replace n with (j + S (n - S j))%nat in Hn by lia.
  apply nsteps_add_inv in Hn as (y & Hy & Hrest).
  inversion Hrest as [|? ? y' ? Hstep _]; subst.
  destruct (nsteps_walk_ancestors _ _ _ _ Hy) as [Hcur Hvis].
  apply chain_body_inl in Hstep as (cid' & template & Hc & _ & Hv & _).
  rewrite Hcur, Hj in Hc. injection Hc as <-.
  apply Hv, Hvis. by exists i.
Qed.

(** The walk revisits an id exactly when the parent references from the
    queried id come to some id twice. *)
Lemma revisits_iff_parent_cycle s template_id :
  revisits s template_id ↔ parent_cycle s template_id.
Proof.
  split.
  - intros (w & cid & [n Hn]%rtc_nsteps_1 & Hc & Ht & Hv).
    destruct (nsteps_walk_ancestors _ _ _ _ Hn) as [Hcur Hvis].
    apply Hvis in Hv as (k & Hk & Hak).
    exists k, n, cid. split_and!; [done..| |done]. by rewrite <- Hcur.
  - intros (i & j & cid & Hij & Hi & Hj & Ht).
    destruct (get_inheritance_chain_run s template_id) as (w & r & Hrtc & Hend & _).
    destruct (rtc_nsteps_1 _ _ Hrtc) as [n Hn].
    destruct (nsteps_walk_ancestors _ _ _ _ Hn) as [Hcur Hvis].
    assert (j < n ∨ j = n ∨ n < j)%nat as [Hlt|[->|Hgt]] by lia.
    + by destruct (walk_passes_distinct _ _ _ _ _ _ _ Hn Hij Hlt Hi Hj).
    + assert (cid ∈ visited w) as Hin by (apply Hvis; by exists i).
      exists w, cid. split_and!; [done| |done..]. by rewrite Hcur.
    + inversion Hend as [Hf|c Hc Htc Hv Hg|c Hc Htc Hv]; subst.
      * assert (ancestor_id s template_id (S n) = None) as Hstop.
        { simpl. rewrite <- Hcur.
          destruct (current_id w) as [c|]; [|done]. simpl in Hf. by rewrite Hf. }
        by rewrite (ancestor_id_None_after _ _ _ _ Hstop) in Hj by lia.
      * assert (ancestor_id s template_id (S n) = None) as Hstop.
        { simpl. by rewrite <- Hcur, Hc, Htc, Hg. }
        by rewrite (ancestor_id_None_after _ _ _ _ Hstop) in Hj by lia.
      * by exists w, c.
Qed.
End cycles.

Section chain_results.
Import template_manager.
Implicit Types (s : store) (w : walk).

Lemma walk_end_outcome s w r :
  walk_end s w r → r = Return (chain w) ∨ r = Raise CircularInheritance.
Proof. intros []; auto. Qed.

Lemma get_inheritance_chain_circular s template_id :
  get_inheritance_chain s template_id = Raise CircularInheritance ↔ revisits s template_id.
Proof.
  destruct (get_inheritance_chain_run s template_id) as (w & r & Hrtc & Hend & Hr & _).
  rewrite Hr. split.
  - intros ->. inversion Hend as [| |cid Hc Ht Hv]. by exists w, cid.
  - intros (w' & cid & Hrtc' & Hc & Ht & Hv).
    assert (walk_end s w' (Raise CircularInheritance)) as Hend' by by eapply end_revisit.
    by destruct (walk_end_unique _ _ _ _ _ _ Hrtc Hend Hrtc' Hend').
Qed.

(** C3. For every store, cyclic ones included, the walk of
    [get_inheritance_chain] ends within its budget (and a larger budget gives
    the same outcome): it returns a chain or raises the circular-inheritance
    error, the latter exactly when the walk comes to an id it has already
    visited, which is exactly when the parent references from the queried
    id come to some id twice; [resolve_template] therefore ends as well. *)
Theorem get_inheritance_chain_terminates s template_id :
  (∃ r, get_inheritance_chain s template_id = r
        ∧ (∀ fuel, (length s < fuel)%nat → chain_loop fuel s (chain_start template_id) = r)
        ∧ ((∃ chain, r = Return chain) ∨ r = Raise CircularInheritance))
  ∧ (get_inheritance_chain s template_id = Raise CircularInheritance
     ↔ revisits s template_id)
  ∧ (get_inheritance_chain s template_id = Raise CircularInheritance
     ↔ parent_cycle s template_id)
  ∧ (∀ (rt : PyRuntime) created modified,
       resolve_template s created modified template_id ≠ OutOfFuel).
Proof.
  destruct (get_inheritance_chain_run s template_id) as (w & r & Hrtc & Hend & Hr & Hfuel).
  pose proof (walk_end_outcome _ _ _ Hend) as Hcases.
  split_and!.
  - exists r. split_and!; [done..|]. destruct Hcases; eauto.
  - apply get_inheritance_chain_circular.
  - rewrite <- revisits_iff_parent_cycle. apply get_inheritance_chain_circular.
  - intros rt created modified. unfold resolve_template.
    destruct (odict.get s template_id); [|done].
    rewrite Hr. by destruct Hcases as [-> | ->].
Qed.
End chain_results.

Section chain_shape.
Import template_manager.
Implicit Types (s : store) (w : walk) (t : recipe.RecipeTemplate).

Lemma walk_reach_inv s template_id w :
  rtc (walk_step s) (chain_start template_id) w →
  w = chain_start template_id ∨ walk_inv s template_id w.
Proof.
  revert w. apply rtc_ind_r; [by left|].
  intros w w' Hrtc Hstep IH. right. apply chain_body_inl in Hstep as (cid & template & Hc & Ht & Hv & Hg & ->).
  destruct IH as [->|(t0 & rest & tl & Hchain & Hg0 & Ht0 & Hlast & Hcur)].
  - simpl in Hc. injection Hc as <-.
    exists template, [], template. by simpl.
  - exists t0, (rest ++ [template])%list, template. simpl.
    rewrite Hchain. split_and!; try done.
    apply last_snoc.
Qed.

(** The chain [get_inheritance_chain] returns: empty when the id is empty or
    unknown; otherwise it starts with the template stored under the id and
    its last element names no stored parent. *)
Lemma get_inheritance_chain_shape s template_id chain :
  get_inheritance_chain s template_id = Return chain →
  (chain = [] ∧ (str_truthy template_id = false ∨ odict.get s template_id = None))
  ∨ (∃ t0 rest tl,
       chain = t0 :: rest ∧ odict.get s template_id = Some t0
       ∧ str_truthy template_id = true ∧ last chain = Some tl
       ∧ ∀ p, recipe.parent_template_id tl = Some p → str_truthy p = true →
              odict.get s p = None).
Proof.
  destruct (get_inheritance_chain_run s template_id) as (w & r & Hrtc & Hend & Hr & _).
  rewrite Hr. intros ->.
  apply walk_reach_inv in Hrtc as [->|(t0 & rest & tl & Hchain & Hg0 & Ht0 & Hlast & Hcur)].
  - left. inversion Hend as [Hf|cid Hc Ht Hv Hg|]; simpl in *.
    + auto.
    + injection Hc as <-. auto.
  - right. exists t0, rest, tl.
    inversion Hend as [Hf|cid Hc Ht Hv Hg|]; (split_and!; [done..|]).
    + intros p Hp Htp. rewrite Hcur, Hp in Hf. simpl in Hf. congruence.
    + intros p Hp Htp. rewrite Hcur, Hp in Hc. by injection Hc as ->.
Qed.

Lemma str_truthy_nonempty (x : string) : str_truthy x = true ↔ x ≠ "".
Proof. by destruct x. Qed.

(** C5, as amended. For a template stored under its own non-empty id: when
    the parent references from that id come to some id twice, the walk
    raises the circular-inheritance error; when they do not, it returns a
    chain whose first element is that template and whose last element has no
    parent reference that names a stored template (the reference is absent,
    empty, or names an id the store does not hold). *)
Theorem chain_first_is_self_last_has_no_stored_parent s t :
  recipe.id t ≠ "" →
  odict.get s (recipe.id t) = Some t →
  (parent_cycle s (recipe.id t)
   ∧ get_inheritance_chain s (recipe.id t) = Raise CircularInheritance)
  ∨ (¬ parent_cycle s (recipe.id t)
     ∧ ∃ rest tl,
         get_inheritance_chain s (recipe.id t) = Return (t :: rest)
         ∧ last (t :: rest) = Some tl
         ∧ ∀ p, recipe.parent_template_id tl = Some p → p ≠ "" → odict.get s p = None).
Proof.
  intros Hid Hstored.
  destruct (get_inheritance_chain_run s (recipe.id t)) as (w & r & _ & Hend & Hr & _).
  apply walk_end_outcome in Hend as [Hret | Hraise]; subst r.
  - right. split.
    { intros Hcycle%revisits_iff_parent_cycle%get_inheritance_chain_circular.
      congruence. }
    apply get_inheritance_chain_shape in Hr as Hshape.
    destruct Hshape as [(_ & [Hf|Hn])|(t0 & rest & tl & Hchain & Hg0 & _ & Hlast & Hp)].
    + apply str_truthy_nonempty in Hid. congruence.
    + congruence.
    + assert (t0 = t) as -> by congruence.
      rewrite Hr, Hchain. exists rest, tl.
      split; [done|]. split; [by rewrite <- Hchain|].
      intros p Hpar Hne. apply Hp; [done|]. by apply str_truthy_nonempty.
  - left. split; [|done].
    by apply revisits_iff_parent_cycle, get_inheritance_chain_circular.
Qed.
End chain_shape.

(** ** Merge *)
Section merge.
Import template_manager.
Context `{PyRuntime}.
Implicit Types (s : store) (t base overlay : recipe.RecipeTemplate).

Lemma merge_temperature (base overlay : recipe.TemperatureProfile) :
  _merge_dataclass base overlay = overlay.
Proof. by destruct base, overlay. Qed.

Lemma merge_gas_flow (base overlay : recipe.GasFlow) :
  _merge_dataclass base overlay = overlay.
Proof. by destruct base, overlay. Qed.

Lemma merge_precursor (base overlay : recipe.PrecursorSetup) :
  _merge_dataclass base overlay = overlay.
Proof. by destruct base, overlay. Qed.

Lemma merge_substrate (base overlay : recipe.SubstrateInfo) :
  _merge_dataclass base overlay = overlay.
Proof. by destruct base, overlay. Qed.

(** The four sections of a merge are the overlay's. *)
Lemma merge_templates_sections base overlay :
  recipe.temperature (_merge_templates base overlay) = recipe.temperature overlay
  ∧ recipe.gas_flow (_merge_templates base overlay) = recipe.gas_flow overlay
  ∧ recipe.precursor (_merge_templates base overlay) = recipe.precursor overlay
  ∧ recipe.substrate (_merge_templates base overlay) = recipe.substrate overlay.
Proof.
  simpl. by rewrite merge_temperature, merge_gas_flow, merge_precursor, merge_substrate.
Qed.

(** Folding a chain root first ends with the merge of its first element. *)
Lemma fold_chain_last t rest resolved :
  fold_left _merge_templates (rev (t :: rest)) resolved
  = _merge_templates (fold_left _merge_templates (rev rest) resolved) t.
Proof. simpl. by rewrite fold_left_app. Qed.

Lemma resolve_template_chain s created modified template_id stored chain :
  odict.get s template_id = Some stored →
  get_inheritance_chain s template_id = Return chain →
  resolve_template s created modified template_id
  = Return (fold_left _merge_templates (rev chain)
              (recipe.RecipeTemplate_init template_id (recipe.name stored) "" created modified)).
Proof. intros Hg Hc. unfold resolve_template. by rewrite Hg, Hc. Qed.

(** C1. For a stored template whose chain is [t :: rest] (target first, root
    last), every parameter section of [resolve_template] is the target's own
    stored section, whatever its ancestors store; so in the chain
    A <- B <- C where A stores [peak_temp = 700.0] and B and C keep the
    default 750.0, the resolved [peak_temp] of C is 750.0. *)
Theorem resolve_sections_are_targets :
  (∀ s created modified template_id t rest,
     odict.get s template_id = Some t →
     get_inheritance_chain s template_id = Return (t :: rest) →
     ∃ r, resolve_template s created modified template_id = Return r
          ∧ recipe.temperature r = recipe.temperature t
          ∧ recipe.gas_flow r = recipe.gas_flow t
          ∧ recipe.precursor r = recipe.precursor t
          ∧ recipe.substrate r = recipe.substrate t)
  ∧ (∀ created modified,
       get_inheritance_chain samples.store_ABC "C"
       = Return [samples.template_C; samples.template_B; samples.template_A]
       ∧ recipe.peak_temp (recipe.temperature samples.template_A) = 700%float
       ∧ recipe.peak_temp (recipe.temperature samples.template_B) = 750%float
       ∧ recipe.peak_temp (recipe.temperature samples.template_C) = 750%float
       ∧ ∃ r, resolve_template samples.store_ABC created modified "C" = Return r
              ∧ recipe.peak_temp (recipe.temperature r) = 750%float).
Proof.
  assert (∀ s created modified template_id t rest,
     odict.get s template_id = Some t →
     get_inheritance_chain s template_id = Return (t :: rest) →
     ∃ r, resolve_template s created modified template_id = Return r
          ∧ recipe.temperature r = recipe.temperature t
          ∧ recipe.gas_flow r = recipe.gas_flow t
          ∧ recipe.precursor r = recipe.precursor t
          ∧ recipe.substrate r = recipe.substrate t) as Hgeneral.
  { intros s created modified template_id t rest Hstored Hchain.
    eexists. split.
    - by apply resolve_template_chain.
    - rewrite fold_chain_last. apply merge_templates_sections. }
  split; [exact Hgeneral|].
  intros created modified.
  assert (get_inheritance_chain samples.store_ABC "C"
          = Return [samples.template_C; samples.template_B; samples.template_A]) as Hchain
    by (vm_compute; reflexivity).
  split_and!; [exact Hchain | reflexivity..|].
  destruct (Hgeneral samples.store_ABC created modified "C" samples.template_C
              [samples.template_B; samples.template_A] eq_refl Hchain)
    as (r & Hr & Htemp & _).
  exists r. split; [done|]. by rewrite Htemp.
Qed.
End merge.

Section merge_metadata.
Import template_manager.
Context `{PyRuntime}.
Implicit Types (s : store) (t base overlay : recipe.RecipeTemplate).

(** C4, as amended. The merged name, parent reference and created/modified
    timestamps are the overlay's; the merged description is the overlay's
    when that is not empty, and the base's otherwise. *)
Theorem merge_templates_metadata base overlay :
  let merged := _merge_templates base overlay in
  recipe.name merged = recipe.name overlay
  ∧ recipe.parent_template_id merged = recipe.parent_template_id overlay
  ∧ recipe.created_at merged = recipe.created_at overlay
  ∧ recipe.modified_at merged = recipe.modified_at overlay
  ∧ recipe.description merged
    = (if decide (recipe.description overlay = "") then recipe.description base
       else recipe.description overlay).
Proof.
  simpl. split_and!; try reflexivity.
  by destruct (recipe.description overlay).
Qed.

(** The chain of a stored root template is the template alone. *)
Lemma get_inheritance_chain_root s t :
  recipe.id t ≠ "" →
  odict.get s (recipe.id t) = Some t →
  recipe.parent_template_id t = None →
  get_inheritance_chain s (recipe.id t) = Return [t].
Proof.
  intros Hid Hstored Hroot.
  destruct (get_inheritance_chain_run s (recipe.id t)) as (w & r & _ & _ & -> & Hfuel).
  rewrite <- (Hfuel (S (S (length s)))) by lia.
  apply str_truthy_nonempty in Hid.
  cbn [chain_loop]. unfold chain_body at 1. simpl.
  rewrite Hid. simpl. rewrite decide_False by set_solver. rewrite Hstored.
  unfold chain_body. simpl. by rewrite Hroot.
Qed.

(** C7, as amended. Resolving a stored root template gives back the
    template field for field, except that its tag list comes back as a
    duplicate-free listing of the same tags, in the order the runtime lists
    a set; when that listing is the stored list, the result is the
    template. *)
Theorem resolve_root_is_self_up_to_tags s created modified t :
  recipe.id t ≠ "" →
  odict.get s (recipe.id t) = Some t →
  recipe.parent_template_id t = None →
  ∃ r, resolve_template s created modified (recipe.id t) = Return r
       ∧ recipe.id r = recipe.id t
       ∧ recipe.name r = recipe.name t
       ∧ recipe.description r = recipe.description t
       ∧ recipe.parent_template_id r = recipe.parent_template_id t
       ∧ recipe.created_at r = recipe.created_at t
       ∧ recipe.modified_at r = recipe.modified_at t
       ∧ recipe.temperature r = recipe.temperature t
       ∧ recipe.gas_flow r = recipe.gas_flow t
       ∧ recipe.precursor r = recipe.precursor t
       ∧ recipe.substrate r = recipe.substrate t
       ∧ recipe.custom_fields r = recipe.custom_fields t
       ∧ NoDup (recipe.tags r)
       ∧ (∀ x, x ∈ recipe.tags r ↔ x ∈ recipe.tags t)
       ∧ (recipe.tags r = recipe.tags t → r = t).
Proof.
  intros Hid Hstored Hroot.
  pose proof (get_inheritance_chain_root s t Hid Hstored Hroot) as Hchain.
  eexists. split; [by apply resolve_template_chain|].
  rewrite fold_chain_last. simpl.
  rewrite merge_temperature, merge_gas_flow, merge_precursor, merge_substrate.
  assert ((if str_truthy (recipe.description t) then recipe.description t else "")
          = recipe.description t) as Hdesc by by destruct (recipe.description t).
  assert (recipe.custom_fields t ∪ ∅ = recipe.custom_fields t) as Hcf
    by apply (right_id_L ∅ (∪)).
  split_and!; try done.
  - apply set_union_list_NoDup.
  - intros x. rewrite set_union_list_elem. set_solver.
  - intros Htags. destruct t. unfold _merge_templates. simpl in *.
    by rewrite merge_temperature, merge_gas_flow, merge_precursor, merge_substrate,
      Hdesc, Hcf, Htags.
Qed.
End merge_metadata.

(** ** CRUD *)
Section crud.
Import template_manager.
Implicit Types (s : store) (t : recipe.RecipeTemplate).

(** [find] returns the first element that passes the test. *)
Lemma find_first {A} (f : A → bool) (l : list A) (x : A) :
  List.find f l = Some x →
  ∃ before after, l = (before ++ x :: after)%list ∧ f x = true
                  ∧ ∀ y, y ∈ before → f y = false.
Proof.
  induction l as [|a l IH]; simpl; [done|].
  destruct (f a) eqn:Hfa.
  - intros [= ->]. exists [], l. split_and!; [done..|]. by intros y ?%elem_of_nil.
  - intros (before & after & -> & Hfx & Hbefore)%IH.
    exists (a :: before), after. split_and!; [done..|].
    intros y [->|Hy]%elem_of_cons; auto.
Qed.

(** C6. [delete_template] returns [False] and keeps the store when the id
    is unknown; for a known id it raises the has-children error, naming a
    stored template whose parent reference is the id (the first one in the
    order of [values()]), and keeps the store as it was, when there is such
    a template; otherwise it returns [True] and the store has lost the entry
    of the id and no other. *)
Theorem delete_template_cases s template_id :
  (odict.get s template_id = None →
     delete_template s template_id = (s, Return false))
  ∧ (is_Some (odict.get s template_id) →
     (∃ t, t ∈ odict.values s ∧ recipe.parent_template_id t = Some template_id) →
     ∃ before child after,
       odict.values s = (before ++ child :: after)%list
       ∧ (∀ t, t ∈ before → recipe.parent_template_id t ≠ Some template_id)
       ∧ recipe.parent_template_id child = Some template_id
       ∧ delete_template s template_id
         = (s, Raise (HasChildren (recipe.name child))))
  ∧ (is_Some (odict.get s template_id) →
     (∀ t, t ∈ odict.values s → recipe.parent_template_id t ≠ Some template_id) →
     ∃ s', delete_template s template_id = (s', Return true)
           ∧ odict.get s' template_id = None
           ∧ ∀ k, k ≠ template_id → odict.get s' k = odict.get s k).
Proof.
  unfold delete_template, odict.contains. split_and!.
  - by intros ->.
  - intros [stored ->] (t & Hin & Hpar). simpl.
    destruct (List.find _ (odict.values s)) as [child|] eqn:Hfind.
    + apply find_first in Hfind as (before & after & Hsplit & Hp & Hbefore).
      exists before, child, after. split_and!; [done | | | done].
      * intros t' Hin'. apply Hbefore in Hin'. by apply bool_decide_eq_false in Hin'.
      * by apply bool_decide_eq_true in Hp.
    + apply list_elem_of_In in Hin.
      pose proof (find_none _ _ Hfind t Hin) as Hno. simpl in Hno.
      by apply bool_decide_eq_false in Hno.
  - intros [stored ->] Hnone. simpl.
    destruct (List.find _ (odict.values s)) as [child|] eqn:Hfind.
    + apply find_some in Hfind as [Hc Hp].
      apply bool_decide_eq_true in Hp. apply list_elem_of_In in Hc.
      by destruct (Hnone child Hc).
    + eexists. split_and!; [done | apply odict_get_del_eq |].
      intros k Hk. by apply odict_get_del_ne.
Qed.

(** The loop of [_would_create_cycle] ends within its budget. *)
Lemma cycle_loop_returns s fuel current seen :
  (size (list_to_set (C:=gset string) (odict.keys s) ∖ seen) < fuel)%nat →
  ∃ b, cycle_loop fuel s current seen = Return b.
Proof.
  revert current seen. induction fuel as [|fuel IH]; intros current seen Hlt; [lia|].
  simpl. destruct current as [cid|]; [|by eauto].
  destruct (str_truthy cid); simpl; [|by eauto].
  case_decide as Hseen; [by eauto|].
  destruct (odict.get s cid) as [template|] eqn:Hg; [|by eauto].
  apply IH. apply odict_get_Some_key in Hg.
  assert (cid ∈ list_to_set (C:=gset string) (odict.keys s)) by by apply elem_of_list_to_set.
  assert (list_to_set (C:=gset string) (odict.keys s) ∖ ({[cid]} ∪ seen)
          ⊂ list_to_set (odict.keys s) ∖ seen) as Hsub%subset_size by set_solver.
  lia.
Qed.

Lemma would_create_cycle_returns s template_id new_parent_id :
  ∃ b, _would_create_cycle s template_id new_parent_id = Return b.
Proof.
  apply cycle_loop_returns.
  pose proof (odict_keys_size s) as Hle.
  assert (list_to_set (C:=gset string) (odict.keys s) ∖ {[template_id]}
          ⊆ list_to_set (odict.keys s)) as Hsub%subseteq_size
    by apply subseteq_difference_l, reflexivity.
  lia.
Qed.

(** C2, the code at the failing input. With A a root and B its child, the
    update of A with parent B is committed ([update_template] returns
    normally and stores it), the guard of [create_template] applied to the
    same assignment reports the cycle, and the chains of A and of B then
    both revisit an id. *)
Theorem update_template_commits_cycle :
  odict.get samples.store_AB "A" = Some (samples.fresh "A" "base")
  ∧ (∃ b, odict.get samples.store_AB "B" = Some b
          ∧ recipe.parent_template_id b = Some "A")
  ∧ _would_create_cycle samples.store_AB "A" "B" = Return true
  ∧ update_template samples.store_AB
      (recipe.with_parent (samples.fresh "A" "base") (Some "B")) "2025-01-02T00:00:00"
    = (samples.store_cycle, Return tt)
  ∧ (∃ a, odict.get samples.store_cycle "A" = Some a
          ∧ recipe.parent_template_id a = Some "B")
  ∧ get_inheritance_chain samples.store_cycle "A" = Raise CircularInheritance
  ∧ get_inheritance_chain samples.store_cycle "B" = Raise CircularInheritance.
Proof.
  split_and!; try (vm_compute; reflexivity).
  - eexists. split; vm_compute; reflexivity.
  - eexists. split; vm_compute; reflexivity.
Qed.
End crud.

(** ** Field path access *)
Section accessor.
Import template_manager.
Context `{PyRuntime}.
Implicit Types (s : store) (t : recipe.RecipeTemplate) (v current : pyval).

Lemma split_dot_nonempty path : split_dot path ≠ [].
Proof.
  induction path as [|c rest IH]; simpl; [done|].
  destruct (Ascii.eqb c "."); [done|]. by destruct (split_dot rest).
Qed.

(** [getattr] after a successful [hasattr] returns. *)
Lemma py_hasattr_getattr current part :
  py_hasattr current part = true → ∃ x, py_getattr current part = Return x.
Proof.
  unfold py_hasattr, py_getattr.
  destruct (instance_attr current part); [by eauto|].
  destruct (type_attr current part); [by eauto|done].
Qed.

(** The reading loop returns a value for every object and every list of
    parts. *)
Lemma get_field_loop_total parts current :
  ∃ v, get_field_loop current parts = Return v.
Proof.
  revert current. induction parts as [|part rest IH]; intros current; simpl.
  - by eauto.
  - destruct (is_None current); [by eauto|].
    destruct (py_hasattr current part) eqn:Hhas.
    + apply py_hasattr_getattr in Hhas as [x ->]. simpl. apply IH.
    + destruct current; by eauto.
Qed.

Lemma get_field_value_total obj path : ∃ v, _get_field_value obj path = Return v.
Proof. apply get_field_loop_total. Qed.

(** Every declared path reads a section field of a template, and that is
    never [None]. *)
Lemma known_path_value t path :
  path ∈ get_all_field_paths →
  ∃ v, _get_field_value (recipe.reflect t) path = Return v ∧ is_None v = false.
Proof.
  intros Hin. apply list_elem_of_In in Hin. vm_compute in Hin.
  repeat (destruct Hin as [<-|Hin];
          [match goal with
           | |- ∃ v, ?g = Return v ∧ _ =>
               let r := eval vm_compute in g in
               assert (g = r) as -> by (vm_compute; reflexivity)
           end; eexists; split; reflexivity|]).
  done.
Qed.
End accessor.

Section accessor_failure.
Import template_manager.
Implicit Types (t : recipe.RecipeTemplate) (v value : pyval).

(** C10, the code at the failing input. In a runtime where [str] objects
    carry an attribute [upper] on their type and no data descriptor takes
    the assignment (as in CPython), [_set_field_value(t, "name.upper", v)]
    passes [hasattr] on the template's name and then raises
    [AttributeError] from [setattr]: it returns no boolean. *)
Theorem set_field_value_raises_on_type_attribute (rt : PyRuntime) t method value :
  type_attr (PStr (recipe.name t)) "upper" = Some method →
  type_setattr (PStr (recipe.name t)) "upper" value = None →
  _set_field_value (recipe.reflect t) "name.upper" value = Raise AttributeError.
Proof.
  intros Hattr Hset. unfold _set_field_value.
  change (split_dot "name.upper") with ["name"; "upper"].
  assert (py_getattr (recipe.reflect t) "name" = Return (PStr (recipe.name t))) as Hname
    by (destruct rt; vm_compute; reflexivity).
  assert (py_hasattr (PStr (recipe.name t)) "upper" = true) as Hhas.
  { unfold py_hasattr, py_getattr. simpl. by rewrite Hattr. }
  cbn [set_field_loop]. unfold py_hasattr at 1. rewrite Hname.
  cbn [mbind outcome_bind]. rewrite Hhas.
  unfold py_setattr. by rewrite Hset.
Qed.
End accessor_failure.

(** ** Effective values *)
Section effective.
Import template_manager.
Context `{PyRuntime}.
Implicit Types (s : store) (t : recipe.RecipeTemplate) (v : pyval).

Lemma get_inheritance_chain_unknown s template_id :
  odict.get s template_id = None →
  get_inheritance_chain s template_id = Return [].
Proof.
  intros Hg. unfold get_inheritance_chain. cbn [chain_loop].
  unfold chain_body. simpl. destruct (str_truthy template_id); simpl; [|done].
  rewrite decide_False by set_solver. by rewrite Hg.
Qed.

(** [while current_id:] takes the empty id for no id. *)
Lemma get_inheritance_chain_empty_id s : get_inheritance_chain s "" = Return [].
Proof. reflexivity. Qed.

Lemma effective_loop_exhausted chain field_path :
  (∀ t, t ∈ chain → _get_field_value (recipe.reflect t) field_path = Return PNone) →
  effective_loop chain field_path = Return None.
Proof.
  induction chain as [|t rest IH]; intros Hnone; simpl; [done|].
  rewrite (Hnone t) by left. simpl. apply IH. intros t' Hin. apply Hnone. by right.
Qed.

(** C8, as amended. For a template stored under its own non-empty id whose
    chain walk does not raise the circular-inheritance error, and for every
    declared path, [get_effective_value] returns the template's own stored
    value, which is not [None], with the template's id as source; when the
    walk raises, [get_effective_value] raises the same error.  When the
    chain yields no value (as for an unknown id, whose chain is empty), it
    returns the value of the path on a default template with no source. *)
Theorem get_effective_value_own_or_default s uuid created modified :
  (∀ t field_path,
     field_path ∈ get_all_field_paths →
     recipe.id t ≠ "" →
     odict.get s (recipe.id t) = Some t →
     get_inheritance_chain s (recipe.id t) ≠ Raise CircularInheritance →
     ∃ v, _get_field_value (recipe.reflect t) field_path = Return v
          ∧ v ≠ PNone
          ∧ get_effective_value s uuid created modified (recipe.id t) field_path
            = Return (v, Some (recipe.id t)))
  ∧ (∀ template_id field_path,
       get_inheritance_chain s template_id = Raise CircularInheritance →
       get_effective_value s uuid created modified template_id field_path
       = Raise CircularInheritance)
  ∧ (∀ template_id field_path chain,
       get_inheritance_chain s template_id = Return chain →
       (∀ t, t ∈ chain → _get_field_value (recipe.reflect t) field_path = Return PNone) →
       ∃ default_value,
         _get_field_value (recipe.reflect (default_template uuid created modified)) field_path
         = Return default_value
         ∧ get_effective_value s uuid created modified template_id field_path
           = Return (default_value, None))
  ∧ (∀ template_id,
       odict.get s template_id = None →
       get_inheritance_chain s template_id = Return []).
Proof.
  split_and!.
  - intros t field_path Hpath Hid Hstored Hnocycle.
    destruct (known_path_value t field_path Hpath) as (v & Hv & Hsome).
    exists v. split_and!; [done | by destruct v |].
    destruct (get_inheritance_chain_run s (recipe.id t)) as (w & r & _ & Hend & Hr & _).
    apply walk_end_outcome in Hend as [Hret | Hraise]; subst r; [|done].
    apply get_inheritance_chain_shape in Hr as Hshape.
    destruct Hshape as [(_ & [Hf|Hn])|(t0 & rest & tl & Hchain & Hg0 & _)].
    + apply str_truthy_nonempty in Hid. congruence.
    + congruence.
    + assert (t0 = t) as -> by congruence.
      unfold get_effective_value. rewrite Hr, Hchain. simpl.
      rewrite Hv. simpl. by rewrite Hsome.
  - intros template_id field_path Hraise. unfold get_effective_value. by rewrite Hraise.
  - intros template_id field_path chain Hchain Hnone.
    destruct (get_field_value_total
                (recipe.reflect (default_template uuid created modified)) field_path)
      as [default_value Hdv].
    exists default_value. split; [done|].
    unfold get_effective_value. rewrite Hchain. simpl.
    rewrite (effective_loop_exhausted _ _ Hnone). simpl. by rewrite Hdv.
  - apply get_inheritance_chain_unknown.
Qed.
End effective.

(** ** Experiment overrides *)
Section overrides.
Context `{PyRuntime}.
Implicit Types (e : experiment.Experiment) (resolved : recipe.RecipeTemplate).

Lemma with_overrides_same e :
  experiment.with_overrides e (experiment.overrides e) (experiment.override_reasons e) = e.
Proof. by destruct e. Qed.

(** C9. When the path has no override, [set_override] followed by
    [remove_override] on it leaves the effective value at the value read
    from the resolved template (the effective value before the override),
    leaves the overrides map as it was and holds no entry for the path in
    either map; [remove_override] on a path without override keeps the
    overrides map, and keeps the whole experiment when the path has no
    justification either. *)
Theorem set_then_remove_override e resolved field_path value reason :
  experiment.overrides e !! field_path = None →
  let e' := experiment.remove_override
              (experiment.set_override e field_path value reason) field_path in
  experiment_editor.effective_value e' resolved field_path
  = template_manager._get_field_value (recipe.reflect resolved) field_path
  ∧ experiment_editor.effective_value e' resolved field_path
    = experiment_editor.effective_value e resolved field_path
  ∧ experiment.overrides e' = experiment.overrides e
  ∧ experiment.overrides e' !! field_path = None
  ∧ experiment.override_reasons e' !! field_path = None
  ∧ experiment.is_overridden e' field_path = false
  ∧ experiment.overrides (experiment.remove_override e field_path) = experiment.overrides e
  ∧ (experiment.override_reasons e !! field_path = None →
     experiment.remove_override e field_path = e).
Proof.
  intros Hnone e'.
  assert (experiment.overrides e' = experiment.overrides e) as Hov.
  { unfold e'. simpl. rewrite delete_insert_eq. by apply delete_id. }
  assert (∀ x, experiment.overrides x !! field_path = None →
            experiment_editor.effective_value x resolved field_path
            = template_manager._get_field_value (recipe.reflect resolved) field_path)
    as Heff.
  { intros x Hx. unfold experiment_editor.effective_value. rewrite Hx.
    by destruct (template_manager._get_field_value _ _). }
  assert (experiment.overrides e' !! field_path = None) as Hnone' by by rewrite Hov.
  split_and!.
  - by apply Heff.
  - by rewrite !Heff.
  - done.
  - done.
  - unfold e'. simpl. apply lookup_delete_eq.
  - unfold experiment.is_overridden. rewrite Hnone'. by apply bool_decide_eq_false_2, is_Some_None.
  - simpl. by apply delete_id.
  - intros Hreason. unfold experiment.remove_override.
    rewrite !delete_id by done. apply with_overrides_same.
Qed.
End overrides.

(** ** Concrete cases *)
Section cases.
Import template_manager samples.

Lemma resolve_sections_are_targets_ABC :
  ∃ r, resolve_template (H:=cpython_fragment) store_ABC "c" "m" "C" = Return r
       ∧ recipe.temperature r = recipe.temperature template_C.
Proof.
  destruct (proj1 (resolve_sections_are_targets (H:=cpython_fragment))
              store_ABC "c" "m" "C" template_C [template_B; template_A])
    as (r & Hr & Htemp & _).
  - vm_compute; reflexivity.
  - vm_compute; reflexivity.
  - exists r. split; assumption.
Defined.

Lemma chain_of_C_first_and_last :
  (¬ parent_cycle store_ABC (recipe.id template_C)
   ∧ ∃ rest tl,
       get_inheritance_chain store_ABC (recipe.id template_C)
       = Return (template_C :: rest)
       ∧ last (template_C :: rest) = Some tl
       ∧ ∀ p, recipe.parent_template_id tl = Some p → p ≠ "" →
              odict.get store_ABC p = None)
  ∧ (parent_cycle store_cycle (recipe.id cyclic_A)
     ∧ get_inheritance_chain store_cycle (recipe.id cyclic_A)
       = Raise CircularInheritance).
Proof.
  split.
  - destruct (chain_first_is_self_last_has_no_stored_parent store_ABC template_C)
      as [[_ Hraise]|Hreturn].
    + vm_compute; discriminate.
    + vm_compute; reflexivity.
    + vm_compute in Hraise. discriminate Hraise.
    + exact Hreturn.
  - destruct (chain_first_is_self_last_has_no_stored_parent store_cycle cyclic_A)
      as [Hraise|[_ (rest & tl & Hreturn & _)]].
    + vm_compute; discriminate.
    + vm_compute; reflexivity.
    + exact Hraise.
    + vm_compute in Hreturn. discriminate Hreturn.
Defined.

(** The claim of C5 fails on stores the manager's own operations build.
    A is created and then updated with a parent id that nobody holds: its
    chain is A alone, and A has a parent reference.  A, its child B, and
    then the update of A with parent B: A is stored and its chain is an
    error, not a list. *)
Lemma chain_last_names_unknown_parent :
  (odict.get store_dangling (recipe.id dangling_A) = Some dangling_A
   ∧ get_inheritance_chain store_dangling (recipe.id dangling_A) = Return [dangling_A]
   ∧ last [dangling_A] = Some dangling_A
   ∧ recipe.parent_template_id dangling_A = Some "ghost"
   ∧ recipe.parent_template_id dangling_A ≠ None)
  ∧ ((∃ a, odict.get store_cycle "A" = Some a ∧ recipe.id a = "A")
     ∧ get_inheritance_chain store_cycle "A" = Raise CircularInheritance).
Proof.
  split; split_and!; try (vm_compute; reflexivity).
  - discriminate.
  - eexists. split; vm_compute; reflexivity.
Qed.

(** The claim of C4 fails for the description: an overlay with the empty
    description leaves the base's description in the merge. *)
Lemma merge_keeps_base_description :
  recipe.description overlay_plain = ""
  ∧ recipe.description (_merge_templates (H:=cpython_fragment) base_described overlay_plain)
    = "base notes"
  ∧ recipe.description (_merge_templates (H:=cpython_fragment) base_described overlay_plain)
    ≠ recipe.description overlay_plain.
Proof. split_and!; try (vm_compute; reflexivity). vm_compute; discriminate. Qed.

Lemma resolve_root_A_is_self_up_to_tags :
  ∃ r, resolve_template (H:=cpython_fragment) store_A "c" "m" "A" = Return r
       ∧ recipe.name r = "base"
       ∧ recipe.custom_fields r = ∅
       ∧ (recipe.tags r = [] → r = fresh "A" "base").
Proof.
  destruct (resolve_root_is_self_up_to_tags (H:=cpython_fragment)
              store_A "c" "m" (fresh "A" "base"))
    as (r & Hr & _ & Hname & _ & _ & _ & _ & _ & _ & _ & _ & Hcf & _ & _ & Heq).
  - vm_compute; discriminate.
  - vm_compute; reflexivity.
  - reflexivity.
  - exists r. split; [exact Hr|]. split; [exact Hname|]. split; [exact Hcf|exact Heq].
Defined.

(** The claim of C7 fails for the tags: a stored root template that carries
    a tag twice resolves to a template with that tag once, under every
    runtime. *)
Lemma resolve_root_drops_duplicate_tag :
  odict.get store_dup (recipe.id template_dup) = Some template_dup
  ∧ recipe.parent_template_id template_dup = None
  ∧ resolve_template (H:=cpython_fragment) store_dup "c" "m" (recipe.id template_dup)
    = Return (with_tags template_dup ["x"])
  ∧ with_tags template_dup ["x"] ≠ template_dup
  ∧ ¬ ∃ rt : PyRuntime,
        resolve_template (H:=rt) store_dup "c" "m" (recipe.id template_dup)
        = Return template_dup.
Proof.
  split_and!; try (vm_compute; reflexivity).
  - intros Heq. apply (f_equal recipe.tags) in Heq. discriminate.
  - intros [rt Hr].
    rewrite (resolve_template_chain (H:=rt) store_dup "c" "m" _ template_dup [template_dup])
      in Hr by (vm_compute; reflexivity).
    injection Hr as Hr.
    pose proof (set_union_list_NoDup [] ["x"; "x"]) as Hnd.
    rewrite Hr in Hnd. apply NoDup_cons in Hnd as [Hnotin _].
    apply Hnotin. left.
Qed.

Lemma delete_template_on_ABC :
  delete_template store_ABC "Z" = (store_ABC, Return false)
  ∧ (∃ before child after,
       odict.values store_ABC = (before ++ child :: after)%list
       ∧ (∀ t, t ∈ before → recipe.parent_template_id t ≠ Some "A")
       ∧ recipe.parent_template_id child = Some "A"
       ∧ delete_template store_ABC "A"
         = (store_ABC, Raise (HasChildren (recipe.name child))))
  ∧ (∃ s', delete_template store_ABC "C" = (s', Return true)
           ∧ odict.get s' "C" = None
           ∧ ∀ k, k ≠ "C" → odict.get s' k = odict.get store_ABC k).
Proof.
  split; [|split].
  - apply (proj1 (delete_template_cases store_ABC "Z")). reflexivity.
  - apply (proj1 (proj2 (delete_template_cases store_ABC "A"))).
    + exists template_A. reflexivity.
    + exists template_B. split; [|reflexivity].
      apply list_elem_of_In. simpl. auto.
  - apply (proj2 (proj2 (delete_template_cases store_ABC "C"))).
    + exists template_C. reflexivity.
    + intros t Hin. apply list_elem_of_In in Hin. simpl in Hin.
      destruct Hin as [<-|[<-|[<-|[]]]]; discriminate.
Defined.

Lemma effective_value_of_C_peak_temp :
  (∃ v, get_effective_value (H:=cpython_fragment) store_ABC "u" "c" "m"
          (recipe.id template_C) "temperature.peak_temp"
        = Return (v, Some (recipe.id template_C))
        ∧ v ≠ PNone)
  ∧ (∃ default_value,
       get_effective_value (H:=cpython_fragment) store_ABC "u" "c" "m"
         "Z" "temperature.peak_temp"
       = Return (default_value, None)).
Proof.
  pose proof (get_effective_value_own_or_default (H:=cpython_fragment)
                store_ABC "u" "c" "m") as (Hown & _ & Hdefault & Hunknown).
  split.
  - destruct (Hown template_C "temperature.peak_temp") as (v & _ & Hv & Heff).
    + apply list_elem_of_In. vm_compute. auto 10.
    + vm_compute; discriminate.
    + vm_compute; reflexivity.
    + vm_compute; discriminate.
    + exists v. split; assumption.
  - destruct (Hdefault "Z" "temperature.peak_temp" []) as (dv & _ & Heff).
    + apply Hunknown. reflexivity.
    + intros t Hin. destruct (proj1 (elem_of_nil t) Hin).
    + exists dv. exact Heff.
Defined.

(** The claim of C8 fails on a store the manager's own operations build:
    after A, its child B and the update of A with parent B, A is stored and
    [get_effective_value] on A raises instead of returning A's value. *)
Lemma effective_value_raises_on_cycle :
  (∃ a, odict.get store_cycle "A" = Some a ∧ recipe.id a = "A")
  ∧ "temperature.peak_temp" ∈ get_all_field_paths
  ∧ get_effective_value (H:=cpython_fragment) store_cycle "u" "c" "m"
      "A" "temperature.peak_temp"
    = Raise CircularInheritance.
Proof.
  split_and!.
  - eexists. split; vm_compute; reflexivity.
  - apply list_elem_of_In. vm_compute. auto 10.
  - vm_compute; reflexivity.
Qed.

Lemma set_then_remove_override_on_experiment_1 :
  experiment_editor.effective_value (H:=cpython_fragment)
    (experiment.remove_override
       (experiment.set_override experiment_1 "temperature.peak_temp"
          (PFloat 800) "hotter run")
       "temperature.peak_temp")
    template_C "temperature.peak_temp"
  = _get_field_value (H:=cpython_fragment) (recipe.reflect template_C)
      "temperature.peak_temp".
Proof.
  apply (set_then_remove_override (H:=cpython_fragment)
           experiment_1 template_C "temperature.peak_temp" (PFloat 800) "hotter run").
  reflexivity.
Defined.

Lemma set_name_upper_raises :
  _set_field_value (H:=cpython_fragment) (recipe.reflect template_A) "name.upper" (PInt 1)
  = Raise AttributeError.
Proof.
  apply (set_field_value_raises_on_type_attribute cpython_fragment
           template_A (POpaque "str.upper") (PInt 1)); reflexivity.
Defined.
End cases.

(** * Further properties *)

(** ** Walks under a change of budget, store, or visited set *)
Section walk_transfer.
Import template_manager.
Implicit Types (s : store) (w : walk).

Lemma chain_loop_fuel_mono s fuel fuel' w r :
  chain_loop fuel s w = r → r ≠ OutOfFuel → (fuel ≤ fuel')%nat →
  chain_loop fuel' s w = r.
Proof.
  revert fuel' w. induction fuel as [|fuel IH]; intros fuel' w Hr Hne Hle.
  - simpl in Hr. congruence.
  - destruct fuel' as [|fuel']; [lia|]. simpl in *.
    destruct (chain_body s w) as [w1|r1]; [|done].
    apply IH; [done..|lia].
Qed.

(** Any budget that lets the loop end gives the outcome of
    [get_inheritance_chain]. *)
Lemma get_inheritance_chain_of_fuel s fuel template_id r :
  chain_loop fuel s (chain_start template_id) = r → r ≠ OutOfFuel →
  get_inheritance_chain s template_id = r.
Proof.
  intros Hr Hne.
  destruct (get_inheritance_chain_run s template_id) as (w & r0 & _ & _ & -> & Hfuel).
  rewrite <- (Hfuel (S (length s) + fuel)%nat) by lia.
  eapply chain_loop_fuel_mono; [done..|lia].
Qed.

(** Two stores that differ at most at the key [k] give the same walk, as
    long as the walk does not come to [k]. *)
Lemma chain_loop_agree s s' k fuel w :
  (∀ c, c ≠ k → odict.get s' c = odict.get s c) →
  (∀ t c, t ∈ odict.values s → recipe.parent_template_id t = Some c →
          str_truthy c = true → c ≠ k) →
  (∀ c, current_id w = Some c → str_truthy c = true → c ≠ k) →
  chain_loop fuel s' w = chain_loop fuel s w.
Proof.
  intros Hget Hpar. revert w. induction fuel as [|fuel IH]; intros w Hcur; [done|].
  simpl. unfold chain_body.
  destruct (current_id w) as [c|] eqn:Hc; [|done].
  destruct (str_truthy c) eqn:Ht; simpl; [|done].
  case_decide; [done|].
  rewrite (Hget c) by by apply Hcur.
  destruct (odict.get s c) as [template|] eqn:Hg; [|done].
  apply IH. simpl. intros c' Hc' Ht'.
  eapply Hpar; [|done..]. by eapply odict_get_Some_value.
Qed.

(** A walk that returns also returns, with the same elements, when an id is
    taken out of its visited set and a prefix off its chain. *)
Lemma chain_loop_drop_visited s x acc fuel cur V c r :
  chain_loop fuel s {| current_id := cur; visited := {[x]} ∪ V; chain := acc ++ c |}
  = Return r →
  ∃ r', r = (acc ++ r')%list
        ∧ chain_loop fuel s {| current_id := cur; visited := V; chain := c |} = Return r'.
Proof.
  revert cur V c. induction fuel as [|fuel IH]; intros cur V c; [done|].
  simpl. unfold chain_body. simpl.
  destruct cur as [cid|]; [|intros [= <-]; by eauto].
  destruct (str_truthy cid); simpl; [|intros [= <-]; by eauto].
  case_decide as Hx; [done|].
  rewrite decide_False by set_solver.
  destruct (odict.get s cid) as [template|]; [|intros [= <-]; by eauto].
  rewrite <- app_assoc.
  replace ({[cid]} ∪ ({[x]} ∪ V)) with ({[x]} ∪ ({[cid]} ∪ V)) by set_solver.
  apply IH.
Qed.

(** A walk that returns without coming to [x] returns the same elements
    when [x] is put into its visited set and a prefix before its chain. *)
Lemma chain_loop_add_visited s x acc fuel cur V c r :
  (∀ t p, t ∈ odict.values s → recipe.parent_template_id t = Some p →
          str_truthy p = true → p ≠ x) →
  (∀ p, cur = Some p → str_truthy p = true → p ≠ x) →
  chain_loop fuel s {| current_id := cur; visited := V; chain := c |} = Return r →
  chain_loop fuel s {| current_id := cur; visited := {[x]} ∪ V; chain := acc ++ c |}
  = Return (acc ++ r)%list.
Proof.
  intros Hpar. revert cur V c. induction fuel as [|fuel IH]; intros cur V c Hcur; [done|].
  simpl. unfold chain_body. simpl.
  destruct cur as [cid|]; [|by intros [= <-]].
  destruct (str_truthy cid) eqn:Ht; simpl; [|by intros [= <-]].
  case_decide as Hv; [done|].
  rewrite decide_False by (specialize (Hcur cid eq_refl Ht); set_solver).
  destruct (odict.get s cid) as [template|] eqn:Hg; [|by intros [= <-]].
  rewrite <- app_assoc.
  replace ({[cid]} ∪ ({[x]} ∪ V)) with ({[x]} ∪ ({[cid]} ∪ V)) by set_solver.
  apply IH. intros p Hp Htp. eapply Hpar; [|done..]. by eapply odict_get_Some_value.
Qed.
End walk_transfer.

(** ** The shape of a returned chain *)
Section chain_structure.
Import template_manager.
Implicit Types (s : store) (w : walk) (t : recipe.RecipeTemplate).

(** X1. The rest of a chain is the chain of the first element's parent. *)
Theorem chain_tail_is_parent_chain s template_id t rest :
  get_inheritance_chain s template_id = Return (t :: rest) →
  (opt_truthy (recipe.parent_template_id t) = false → rest = [])
  ∧ (∀ p, recipe.parent_template_id t = Some p → str_truthy p = true →
          get_inheritance_chain s p = Return rest).
Proof.
  intros Hchain.
  destruct (get_inheritance_chain_shape _ _ _ Hchain)
    as [[? _]|(t0 & rest0 & tl & [= <- <-] & Hg & Ht & _)]; [done|].
  unfold get_inheritance_chain in Hchain. cbn [chain_loop] in Hchain.
  unfold chain_body at 1 in Hchain. simpl in Hchain.
  rewrite Ht in Hchain. simpl in Hchain.
  rewrite decide_False, Hg in Hchain by set_solver.
  apply (chain_loop_drop_visited s template_id [t] (length s)
           (recipe.parent_template_id t) ∅ [] (t :: rest)) in Hchain
    as (r' & [= <-] & Hloop).
  split.
  - intros Hf. destruct s as [|e s]; [done|]. simpl in Hloop.
    unfold chain_body in Hloop. simpl in Hloop.
    destruct (recipe.parent_template_id t) as [p|]; simpl in *.
    + rewrite Hf in Hloop. simpl in Hloop. by injection Hloop.
    + by injection Hloop.
  - intros p Hp Htp. rewrite Hp in Hloop.
    by apply (get_inheritance_chain_of_fuel s (length s)).
Qed.

(** While the loop runs, the chain has one element per visited id, the
    visited ids are keys of the store and the elements are stored. *)
Lemma walk_reach_stored s template_id w :
  rtc (walk_step s) (chain_start template_id) w →
  length (chain w) = size (visited w)
  ∧ visited w ⊆ list_to_set (odict.keys s)
  ∧ ∀ t, t ∈ chain w → t ∈ odict.values s.
Proof.
  revert w. apply rtc_ind_r.
  - simpl. split_and!; [done|set_solver|]. by intros t ?%elem_of_nil.
  - intros w w' _ (cid & template & Hc & Ht & Hv & Hg & ->)%chain_body_inl
      (Hlen & Hsub & Hin).
    simpl. split_and!.
    + rewrite length_app, size_union, size_singleton by set_solver. simpl. lia.
    + apply odict_get_Some_key in Hg.
      assert (cid ∈ list_to_set (C:=gset string) (odict.keys s))
        by by apply elem_of_list_to_set.
      set_solver.
    + intros t [Ht'|Ht']%elem_of_app; [by apply Hin|].
      apply list_elem_of_singleton in Ht' as ->. by eapply odict_get_Some_value.
Qed.

(** X2. A returned chain holds stored templates only and is no longer than the
    store. *)
Theorem chain_is_stored_and_bounded s template_id chain :
  get_inheritance_chain s template_id = Return chain →
  (length chain ≤ length s)%nat ∧ ∀ t, t ∈ chain → t ∈ odict.values s.
Proof.
  intros Hchain.
  destruct (get_inheritance_chain_run s template_id) as (w & r & Hrtc & Hend & Hr & _).
  rewrite Hr in Hchain. subst r.
  assert (chain = template_manager.chain w) as -> by by inversion Hend.
  destruct (walk_reach_stored _ _ _ Hrtc) as (Hlen & Hsub & Hin).
  split; [|done].
  rewrite Hlen. apply subseteq_size in Hsub.
  pose proof (odict_keys_size s). lia.
Qed.
End chain_structure.

(** ** More on ordered dictionaries *)
Section odict_more.
Context {V : Type}.
Implicit Types (d : list (string * V)) (k : string) (v : V).

Lemma odict_get_None_key d k : odict.get d k = None ↔ k ∉ odict.keys d.
Proof.
  unfold odict.keys. induction d as [|[k' v'] d IH]; csimpl.
  - split; [intros _; apply not_elem_of_nil|done].
  - rewrite not_elem_of_cons. case_decide as Hk.
    + split; [done|]. by intros [? _].
    + rewrite IH. naive_solver.
Qed.

Lemma odict_elem_get d k v : NoDup (odict.keys d) → (k, v) ∈ d → odict.get d k = Some v.
Proof.
  unfold odict.keys. induction d as [|[k' v'] d IH]; csimpl.
  - by intros _ ?%elem_of_nil.
  - intros [Hnotin Hnd]%NoDup_cons [[= -> ->]|Hin]%elem_of_cons.
    + by rewrite decide_True.
    + rewrite decide_False; [by apply IH|].
      intros ->. apply Hnotin. apply list_elem_of_fmap. by exists (k, v).
Qed.

(** A new key goes last. *)
Lemma odict_set_fresh d k v : odict.get d k = None → odict.set d k v = (d ++ [(k, v)])%list.
Proof.
  induction d as [|[k' v'] d IH]; simpl; [done|].
  case_decide; [done|]. intros Hg. by rewrite IH.
Qed.

(** A present key keeps its place: the keys are the same list. *)
Lemma odict_set_present_keys d k v :
  is_Some (odict.get d k) → odict.keys (odict.set d k v) = odict.keys d.
Proof.
  unfold odict.keys. induction d as [|[k' v'] d IH]; simpl.
  - by intros [? ?].
  - case_decide as Hk; csimpl; [by subst|]. intros Hg. by rewrite IH.
Qed.

Lemma odict_set_elem d k v k' v' :
  (k', v') ∈ odict.set d k v → (k', v') = (k, v) ∨ (k', v') ∈ d.
Proof.
  induction d as [|[k0 v0] d IH]; simpl.
  - intros ->%list_elem_of_singleton. by left.
  - case_decide as Hk.
    + intros [->|Hin]%elem_of_cons; [by left|]. right. by right.
    + intros [->|Hin]%elem_of_cons; [right; by left|].
      destruct (IH Hin) as [?|?]; [by left|]. right. by right.
Qed.

Lemma odict_del_elem d k k' v' : (k', v') ∈ odict.del d k ↔ (k', v') ∈ d ∧ k' ≠ k.
Proof. unfold odict.del. rewrite list_elem_of_filter. naive_solver. Qed.

Lemma odict_del_keys_NoDup d k : NoDup (odict.keys d) → NoDup (odict.keys (odict.del d k)).
Proof.
  unfold odict.keys, odict.del. induction d as [|[k' v'] d IH]; csimpl; [done|].
  intros [Hnotin Hnd]%NoDup_cons.
  destruct (decide (k' = k)) as [->|Hk].
  - rewrite filter_cons_False by (simpl; auto). by apply IH.
  - rewrite filter_cons_True by done. csimpl. apply NoDup_cons. split; [|by apply IH].
    intros ((k0 & v0) & -> & Hin)%list_elem_of_fmap. simpl in *.
    apply list_elem_of_filter in Hin as [_ Hin].
    apply Hnotin. apply list_elem_of_fmap. by exists (k0, v0).
Qed.

Lemma odict_values_elem d v : v ∈ odict.values d ↔ ∃ k, (k, v) ∈ d.
Proof.
  unfold odict.values. rewrite list_elem_of_fmap. split.
  - intros ([k v'] & -> & Hin). by exists k.
  - intros (k & Hin). by exists (k, v).
Qed.

(** [find] with a decidable test is the head of [filter]. *)
Lemma find_head_filter {A} (P : A → Prop) `{∀ x, Decision (P x)} (l : list A) :
  List.find (λ x, bool_decide (P x)) l = head (filter P l).
Proof.
  induction l as [|a l IH]; simpl; [done|].
  destruct (decide (P a)) as [Ha|Ha].
  - by rewrite bool_decide_true, filter_cons_True.
  - by rewrite bool_decide_false, filter_cons_False.
Qed.
End odict_more.

(** ** What the store operations keep *)
Section store_invariants.
Import template_manager forest.
Implicit Types (s : store) (t : recipe.RecipeTemplate).

(** In a closed store no parent reference names an id that is not stored. *)
Lemma closed_no_reference s k :
  parent_closed s → odict.get s k = None →
  ∀ t c, t ∈ odict.values s → recipe.parent_template_id t = Some c →
         str_truthy c = true → c ≠ k.
Proof.
  intros Hclosed Hk t c Hin Hpar Ht ->.
  destruct (Hclosed t k Hin Hpar Ht) as [? ?]. congruence.
Qed.

(** The walk of the cycle check against the walk of the chain, when the
    walk does not come to the id the check starts from. *)
Lemma cycle_loop_of_chain s x fuel cur V c r :
  (∀ t p, t ∈ odict.values s → recipe.parent_template_id t = Some p →
          str_truthy p = true → p ≠ x) →
  (∀ p, cur = Some p → str_truthy p = true → p ≠ x) →
  chain_loop fuel s {| current_id := cur; visited := V; chain := c |} = Return r →
  cycle_loop fuel s cur ({[x]} ∪ V) = Return false.
Proof.
  intros Hpar. revert cur V c. induction fuel as [|fuel IH]; intros cur V c Hcur; [done|].
  simpl. unfold chain_body. simpl.
  destruct cur as [cid|]; [|done].
  destruct (str_truthy cid) eqn:Ht; simpl; [|done].
  case_decide as Hv; [done|].
  rewrite decide_False by (specialize (Hcur cid eq_refl Ht); set_solver).
  destruct (odict.get s cid) as [template|] eqn:Hg; [|done].
  replace ({[cid]} ∪ ({[x]} ∪ V)) with ({[x]} ∪ ({[cid]} ∪ V)) by set_solver.
  apply IH. intros p Hp Htp. eapply Hpar; [|done..]. by eapply odict_get_Some_value.
Qed.

Lemma acyclic_chain_returns s template_id :
  acyclic s → ∃ chain, get_inheritance_chain s template_id = Return chain.
Proof.
  intros Hacyc.
  destruct (get_inheritance_chain_run s template_id) as (w & r & _ & Hend & Hr & _).
  apply walk_end_outcome in Hend as [-> | ->]; [by eauto|].
  by destruct (Hacyc template_id).
Qed.

(** On a forest the cycle check of a new id against a stored parent says
    no. *)
Lemma would_create_cycle_fresh s uuid p :
  parent_closed s → acyclic s → odict.get s uuid = None →
  is_Some (odict.get s p) →
  _would_create_cycle s uuid p = Return false.
Proof.
  intros Hclosed Hacyc Hfresh [tp Hp].
  destruct (acyclic_chain_returns s p Hacyc) as [chain Hchain].
  unfold _would_create_cycle.
  replace ({[uuid]} : gset string) with ({[uuid]} ∪ (∅ : gset string)) by set_solver.
  eapply cycle_loop_of_chain; [by apply closed_no_reference | | exact Hchain].
  intros ? [= <-] _ ->. congruence.
Qed.

(** Adding a template under a new key to a closed store leaves the chains of
    the other ids as they were. *)
Lemma chain_after_fresh_insert s uuid t template_id :
  parent_closed s → odict.get s uuid = None → template_id ≠ uuid →
  get_inheritance_chain (s ++ [(uuid, t)]) template_id
  = get_inheritance_chain s template_id.
Proof.
  intros Hclosed Hfresh Hne.
  destruct (get_inheritance_chain_run s template_id) as (w & r & _ & _ & -> & Hfuel).
  unfold get_inheritance_chain.
  rewrite (chain_loop_agree s (s ++ [(uuid, t)]) uuid).
  - apply Hfuel. rewrite length_app. simpl. lia.
  - intros c Hc. rewrite <- odict_set_fresh by done. by apply odict_get_set_ne.
  - by apply closed_no_reference.
  - simpl. by intros ? [= <-] _.
Qed.

(** The chain of a template added under a new key: the template alone when
    it has no parent, and the template before its parent's chain. *)
Lemma chain_of_fresh_insert s uuid t :
  parent_closed s → odict.get s uuid = None → str_truthy uuid = true →
  (opt_truthy (recipe.parent_template_id t) = false →
     get_inheritance_chain (s ++ [(uuid, t)]) uuid = Return [t])
  ∧ (∀ p chain, recipe.parent_template_id t = Some p → str_truthy p = true →
       is_Some (odict.get s p) →
       get_inheritance_chain s p = Return chain →
       get_inheritance_chain (s ++ [(uuid, t)]) uuid = Return (t :: chain)).
Proof.
  intros Hclosed Hfresh Huuid.
  assert (odict.get (s ++ [(uuid, t)]) uuid = Some t) as Hnew.
  { rewrite <- odict_set_fresh by done. apply odict_get_set_eq. }
  assert (∀ fuel, chain_loop (S fuel) (s ++ [(uuid, t)]) (chain_start uuid)
                  = chain_loop fuel (s ++ [(uuid, t)])
                      {| current_id := recipe.parent_template_id t;
                         visited := {[uuid]} ∪ ∅; chain := [] ++ [t] |}) as Hstep.
  { intros fuel. cbn [chain_loop]. unfold chain_body at 1. simpl.
    rewrite Huuid. simpl. by rewrite decide_False, Hnew by set_solver. }
  split.
  - intros Hf. unfold get_inheritance_chain. rewrite Hstep, length_app. simpl.
    rewrite Nat.add_1_r. cbn [chain_loop]. unfold chain_body. simpl.
    destruct (recipe.parent_template_id t) as [p|]; [|done].
    simpl in Hf. by rewrite Hf.
  - intros p chain Hp Htp [tp Hgp] Hchain.
    unfold get_inheritance_chain. rewrite Hstep, length_app. simpl.
    rewrite Nat.add_1_r, Hp.
    rewrite (chain_loop_agree s (s ++ [(uuid, t)]) uuid).
    + apply (chain_loop_add_visited s uuid [t] (S (length s)) (Some p) ∅ [] chain).
      * by apply closed_no_reference.
      * intros ? [= <-] _ ->. congruence.
      * exact Hchain.
    + intros c Hc. rewrite <- odict_set_fresh by done. by apply odict_get_set_ne.
    + by apply closed_no_reference.
    + simpl. intros ? [= <-] _ ->. congruence.
Qed.
End store_invariants.

Section store_operations.
Import template_manager forest.
Implicit Types (s : store) (t : recipe.RecipeTemplate).

Lemma get_after_fresh_insert s uuid t k :
  odict.get s uuid = None → is_Some (odict.get s k) →
  odict.get (s ++ [(uuid, t)]) k = odict.get s k.
Proof.
  intros Hfresh [v Hk]. rewrite <- odict_set_fresh by done.
  apply odict_get_set_ne. intros ->. congruence.
Qed.

(** A template with a stored (or no) parent, added under its own new id,
    keeps a forest a forest. *)
Lemma forest_insert s uuid t :
  is_forest s → odict.get s uuid = None → recipe.id t = uuid →
  (∀ p, recipe.parent_template_id t = Some p → str_truthy p = true →
        is_Some (odict.get s p)) →
  is_forest (s ++ [(uuid, t)]).
Proof.
  intros ((Hnd & Hkeys) & Hclosed & Hacyc) Hfresh Hid Hpar. split_and!.
  - split.
    + unfold odict.keys. rewrite fmap_app. apply NoDup_app. split_and!; [done| |].
      * intros k Hk ->%list_elem_of_singleton. by apply odict_get_None_key in Hfresh.
      * apply NoDup_singleton.
    + intros k t' [Hin|Heq%list_elem_of_singleton]%elem_of_app; [by apply Hkeys|].
      by injection Heq as -> ->.
  - intros t' p Hin Hp Htp.
    unfold odict.values in Hin. rewrite fmap_app in Hin.
    apply elem_of_app in Hin as [Hin|Heq%list_elem_of_singleton].
    + rewrite get_after_fresh_insert; by eauto.
    + simpl in Heq. subst t'. rewrite get_after_fresh_insert; by eauto.
  - intros template_id. destruct (decide (template_id = uuid)) as [->|Hne].
    + destruct (str_truthy uuid) eqn:Hu.
      * destruct (chain_of_fresh_insert s uuid t Hclosed Hfresh Hu) as [Hroot Hchild].
        destruct (recipe.parent_template_id t) as [p|] eqn:Hp.
        -- destruct (str_truthy p) eqn:Htp.
           ++ destruct (acyclic_chain_returns s p Hacyc) as [chain Hchain].
              rewrite (Hchild p chain); simpl; by eauto.
           ++ rewrite Hroot; [done|]. simpl. done.
        -- by rewrite Hroot.
      * destruct uuid; [|done]. by rewrite get_inheritance_chain_empty_id.
    + rewrite chain_after_fresh_insert by done. apply Hacyc.
Qed.

(** Taking out a template that no stored template names as parent keeps a
    forest a forest. *)
Lemma forest_delete s template_id :
  is_forest s →
  (∀ t, t ∈ odict.values s → recipe.parent_template_id t ≠ Some template_id) →
  is_forest (odict.del s template_id).
Proof.
  intros ((Hnd & Hkeys) & Hclosed & Hacyc) Hnone. split_and!.
  - split; [by apply odict_del_keys_NoDup|].
    intros k t [Hin _]%odict_del_elem. by apply Hkeys.
  - intros t p [k [Hin _]%odict_del_elem]%odict_values_elem Hp Htp.
    assert (t ∈ odict.values s) as Hv by (apply odict_values_elem; by exists k).
    rewrite odict_get_del_ne; [by eapply Hclosed|].
    intros ->. by apply (Hnone t).
  - intros x. destruct (decide (x = template_id)) as [->|Hne].
    + rewrite get_inheritance_chain_unknown; [done|]. apply odict_get_del_eq.
    + destruct (get_inheritance_chain_run (odict.del s template_id) x)
        as (w & r & _ & Hend & Hr & _).
      rewrite Hr. unfold get_inheritance_chain in Hr.
      rewrite (chain_loop_agree s (odict.del s template_id) template_id) in Hr.
      * apply get_inheritance_chain_of_fuel in Hr.
        -- rewrite <- Hr. apply Hacyc.
        -- by apply walk_end_outcome in Hend as [-> | ->].
      * intros c Hc. by apply odict_get_del_ne.
      * intros t c Hin Hp _ ->. by apply (Hnone t).
      * simpl. by intros ? [= <-] _.
Qed.

Lemma create_template_forest s uuid created modified name parent_id description :
  is_forest s → odict.get s uuid = None →
  is_forest (create_template s uuid created modified name parent_id description).1.
Proof.
  intros Hforest Hfresh. unfold create_template.
  set (t0 := recipe.RecipeTemplate_init uuid name description created modified).
  assert (is_forest (odict.set s uuid t0)) as Hroot.
  { rewrite odict_set_fresh by done. by apply forest_insert. }
  destruct parent_id as [p|]; [|by simpl].
  destruct (str_truthy p) eqn:Htp; simpl; [|done].
  destruct (odict.contains s p) eqn:Hc; simpl; [|done].
  apply odict_contains_spec in Hc.
  pose proof Hforest as (Hkeyed & Hclosed & Hacyc).
  rewrite (would_create_cycle_fresh s uuid p) by done. simpl.
  rewrite odict_set_fresh by done. apply forest_insert; [done..|].
  simpl. by intros ? [= <-] _.
Qed.

Lemma delete_template_forest s template_id :
  is_forest s → is_forest (delete_template s template_id).1.
Proof.
  intros Hforest. unfold delete_template.
  destruct (odict.contains s template_id); simpl; [|done].
  destruct (List.find _ _) as [child|] eqn:Hfind; simpl; [done|].
  apply forest_delete; [done|].
  intros t Hin%list_elem_of_In Hp.
  pose proof (find_none _ _ Hfind t Hin) as Hno. simpl in Hno.
  by apply bool_decide_eq_false in Hno.
Qed.

(** X3. [create_template] with an id that is not in use keeps a forest, never
    reports a cycle, and fails only for a non-empty parent id that is not
    stored, leaving the store as it was. *)
Theorem create_template_keeps_forest s uuid created modified name parent_id description :
  is_forest s → odict.get s uuid = None →
  let result := create_template s uuid created modified name parent_id description in
  is_forest result.1
  ∧ result.2 ≠ Raise CycleDetected
  ∧ result.2 ≠ OutOfFuel
  ∧ ∀ e, result.2 = Raise e →
         result.1 = s ∧ ∃ p, parent_id = Some p ∧ p ≠ "" ∧ odict.get s p = None
                             ∧ e = NotFound p.
Proof.
  intros Hforest Hfresh result.
  split; [by apply create_template_forest|].
  unfold result, create_template.
  destruct parent_id as [p|]; [|by simpl].
  destruct (str_truthy p) eqn:Htp; simpl; [|done].
  destruct (odict.contains s p) eqn:Hc; simpl.
  - apply odict_contains_spec in Hc.
    destruct Hforest as (Hkeyed & Hclosed & Hacyc).
    by rewrite (would_create_cycle_fresh s uuid p).
  - split_and!; [done..|]. intros e [= <-]. split; [done|].
    exists p. split_and!; [done| |  |done].
    + by apply str_truthy_nonempty.
    + unfold odict.contains in Hc. by destruct (odict.get s p).
Qed.

(** X4. On a forest, creating a child of a stored parent under a new non-empty
    id returns the child, stored last, and the child's chain is the child
    followed by the parent's chain. *)
Theorem create_template_child_chain s uuid created modified name p description :
  is_forest s → odict.get s uuid = None → uuid ≠ "" → p ≠ "" →
  is_Some (odict.get s p) →
  let child := recipe.with_parent
                 (recipe.RecipeTemplate_init uuid name description created modified)
                 (Some p) in
  create_template s uuid created modified name (Some p) description
  = ((s ++ [(uuid, child)])%list, Return child)
  ∧ ∃ chain, get_inheritance_chain s p = Return chain
             ∧ get_inheritance_chain (s ++ [(uuid, child)]) uuid = Return (child :: chain).
Proof.
  intros (Hkeyed & Hclosed & Hacyc) Hfresh Hu%str_truthy_nonempty Hp%str_truthy_nonempty
    Hstored child.
  split.
  - unfold create_template. simpl. rewrite Hp. simpl.
    apply odict_contains_spec in Hstored as Hc. rewrite Hc. simpl.
    rewrite (would_create_cycle_fresh s uuid p) by done. simpl.
    by rewrite odict_set_fresh.
  - destruct (acyclic_chain_returns s p Hacyc) as [chain Hchain].
    exists chain. split; [done|].
    by apply (proj2 (chain_of_fresh_insert s uuid child Hclosed Hfresh Hu) p chain).
Qed.

(** X5. [delete_template] keeps a forest; for a stored id it succeeds exactly
    when [get_children] lists nobody, and otherwise names the first of the
    children and leaves the store as it was. *)
Theorem delete_template_on_forest s template_id :
  (is_forest s → is_forest (delete_template s template_id).1)
  ∧ (is_Some (odict.get s template_id) →
     match get_children s template_id with
     | [] => delete_template s template_id = (odict.del s template_id, Return true)
     | child :: _ =>
         delete_template s template_id = (s, Raise (HasChildren (recipe.name child)))
     end).
Proof.
  split; [apply delete_template_forest|].
  intros Hstored%odict_contains_spec. unfold delete_template, get_children.
  rewrite Hstored. simpl.
  rewrite (find_head_filter (λ t, recipe.parent_template_id t = Some template_id)).
  by destruct (filter _ _).
Qed.

(** X6. Every store built from the empty one by [create_template] with unused
    ids and by [delete_template] is a forest. *)
Theorem built_store_is_forest s : built s → is_forest s.
Proof.
  induction 1 as [|s uuid created modified name parent_id description _ IH _ Hfresh
                  |s template_id _ IH].
  - split_and!.
    + split; [apply NoDup_nil_2|]. by intros k t ?%elem_of_nil.
    + by intros t p ?%elem_of_nil.
    + intros template_id. by rewrite get_inheritance_chain_unknown.
  - by apply create_template_forest.
  - by apply delete_template_forest.
Qed.
End store_operations.

Section built_stores.
Import template_manager forest.
Implicit Types (s : store) (t : recipe.RecipeTemplate).

(** In a built store no key is empty and no parent reference is. *)
Lemma built_nonempty s :
  built s →
  ∀ k t, (k, t) ∈ s →
         k ≠ "" ∧ ∀ p, recipe.parent_template_id t = Some p → p ≠ "".
Proof.
  induction 1 as [|s uuid created modified name parent_id description _ IH Hu Hfresh
                  |s template_id _ IH].
  - by intros k t ?%elem_of_nil.
  - intros k t. unfold create_template.
    assert (∀ t0, recipe.id t0 = uuid →
              (∀ p, recipe.parent_template_id t0 = Some p → p ≠ "") →
              (k, t) ∈ odict.set s uuid t0 →
              k ≠ "" ∧ ∀ p, recipe.parent_template_id t = Some p → p ≠ "") as Hset.
    { intros t0 Hid Hp [[= -> ->]|Hin]%odict_set_elem; [done|by apply IH]. }
    destruct parent_id as [p|]; [|by apply Hset].
    destruct (str_truthy p) eqn:Htp; simpl; [|by apply Hset].
    destruct (odict.contains s p); simpl; [|by apply IH].
    destruct (_would_create_cycle s _ p) as [[|]|e|]; simpl; try by apply IH.
    apply Hset; [done|]. simpl. intros ? [= <-]. by apply str_truthy_nonempty.
  - intros k t. unfold delete_template.
    destruct (odict.contains s template_id); simpl; [|by apply IH].
    destruct (List.find _ _); simpl; [by apply IH|].
    intros [Hin _]%odict_del_elem. by apply IH.
Qed.

(** X7. In a store built by [create_template] and [delete_template], the chain
    of every stored template starts with the template and ends with a
    template that has no parent reference. *)
Theorem built_chain_ends_at_root s k t :
  built s → odict.get s k = Some t →
  ∃ rest tl, get_inheritance_chain s k = Return (t :: rest)
             ∧ last (t :: rest) = Some tl
             ∧ recipe.parent_template_id tl = None.
Proof.
  intros Hbuilt Hstored.
  pose proof (built_nonempty s Hbuilt) as Hne.
  assert (is_forest s) as (Hkeyed & Hclosed & Hacyc).
  { clear Hstored Hne.
    induction Hbuilt as [|s uuid created modified name parent_id description _ IH _ Hfresh
                         |s template_id _ IH].
    - split_and!.
      + split; [apply NoDup_nil_2|]. by intros ? ? ?%elem_of_nil.
      + by intros ? ? ?%elem_of_nil.
      + intros template_id. by rewrite get_inheritance_chain_unknown.
    - by apply create_template_forest.
    - by apply delete_template_forest. }
  destruct (Hne k t (odict_get_Some_elem _ _ _ Hstored)) as [Hk _].
  destruct (get_inheritance_chain_run s k) as (w & r & Hrtc & Hend & Hr & _).
  destruct (acyclic_chain_returns s k Hacyc) as [chain Hchain].
  destruct (get_inheritance_chain_shape _ _ _ Hchain)
    as [(_ & [Hf|Hn])|(t0 & rest & tl & -> & Hg0 & _ & Hlast & Hp)].
  - apply str_truthy_nonempty in Hk. congruence.
  - congruence.
  - assert (t0 = t) as -> by congruence.
    exists rest, tl. split_and!; [done..|].
    assert (tl ∈ odict.values s) as Htl.
    { rewrite Hchain in Hr. subst r.
      apply walk_end_outcome in Hend as [[= Hw]|?]; [|done].
      apply (walk_reach_stored _ _ _ Hrtc). rewrite <- Hw.
      apply list_elem_of_lookup. exists (pred (length (t :: rest))).
      by rewrite <- last_lookup. }
    destruct (recipe.parent_template_id tl) as [p|] eqn:Hpar; [exfalso|done].
    apply odict_values_elem in Htl as Hin. destruct Hin as [k' Hin].
    destruct (Hne k' tl Hin) as [_ Hpne]. specialize (Hpne p Hpar).
    apply str_truthy_nonempty in Hpne.
    destruct (Hclosed tl p Htl Hpar Hpne) as [tp Htp].
    rewrite (Hp p) in Htp; done.
Qed.

(** X8. [update_template] fails for an id that is not stored and leaves the
    store as it was; for a stored id it puts the template, stamped with the
    new modification time, in the place of the old entry: the keys and
    every other entry stay, and the entries stay under their ids. *)
Theorem update_template_cases s t now :
  (odict.get s (recipe.id t) = None →
     update_template s t now = (s, Raise (NotFound (recipe.id t))))
  ∧ (is_Some (odict.get s (recipe.id t)) →
     ∃ s', update_template s t now = (s', Return tt)
           ∧ odict.get s' (recipe.id t) = Some (recipe.update_modified t now)
           ∧ (∀ k, k ≠ recipe.id t → odict.get s' k = odict.get s k)
           ∧ odict.keys s' = odict.keys s
           ∧ (well_keyed s → well_keyed s')).
Proof.
  unfold update_template, odict.contains. split.
  - by intros ->.
  - intros Hstored. destruct Hstored as [old Hold] eqn:E. rewrite Hold. simpl.
    eexists. split; [done|]. split_and!.
    + apply odict_get_set_eq.
    + intros k Hk. by apply odict_get_set_ne.
    + apply odict_set_present_keys. by eauto.
    + intros [Hnd Hkeys]. split.
      * rewrite odict_set_present_keys by eauto. done.
      * intros k t' [[= -> ->]|Hin]%odict_set_elem; [done|by apply Hkeys].
Qed.
End built_stores.

(** ** What a resolved template inherits *)
Section resolve_metadata.
Import template_manager.
Context `{PyRuntime}.
Implicit Types (s : store) (t : recipe.RecipeTemplate).

Lemma fold_chain_metadata chain resolved :
  recipe.description resolved = "" → recipe.tags resolved = [] →
  recipe.custom_fields resolved = ∅ →
  let r := fold_left _merge_templates (rev chain) resolved in
  recipe.id r = recipe.id resolved
  ∧ recipe.custom_fields r = foldr (λ a acc, recipe.custom_fields a ∪ acc) ∅ chain
  ∧ recipe.description r
    = default "" (head (filter (λ d, d ≠ "") (recipe.description <$> chain)))
  ∧ ∀ x, x ∈ recipe.tags r ↔ ∃ a, a ∈ chain ∧ x ∈ recipe.tags a.
Proof.
  intros Hd Ht Hc. induction chain as [|a chain IH].
  - simpl. split_and!; [done..|]. intros x. rewrite Ht. split.
    + by intros ?%elem_of_nil.
    + by intros (a & ?%elem_of_nil & _).
  - destruct IH as (IHid & IHcf & IHd & IHt).
    cbv zeta. rewrite fold_chain_last, fmap_cons, filter_cons.
    cbn [_merge_templates recipe.id recipe.custom_fields recipe.description
         recipe.tags foldr].
    split_and!.
    + done.
    + by rewrite IHcf.
    + rewrite IHd. case_decide as Ha.
      * apply str_truthy_nonempty in Ha. by rewrite Ha.
      * by rewrite Ha.
    + intros x. rewrite set_union_list_elem, IHt. split.
      * intros [(b & Hb & Hx)|Hx]; [exists b|exists a]; split; try done;
          [by right|by left].
      * intros (b & [->|Hb]%elem_of_cons & Hx); [by right|left; by exists b].
Qed.

(** X9. Besides the sections of the target, a resolved template has the id that
    was asked for and the target's name; its custom fields are those of the
    whole chain with the nearest template winning per key; its description
    is the nearest non-empty description of the chain (empty if there is
    none); its tags are the tags of the whole chain. *)
Theorem resolve_inherits_metadata s created modified template_id t chain :
  odict.get s template_id = Some t →
  get_inheritance_chain s template_id = Return chain →
  ∃ r, resolve_template s created modified template_id = Return r
       ∧ recipe.id r = template_id
       ∧ recipe.name r = recipe.name t
       ∧ recipe.custom_fields r = foldr (λ a acc, recipe.custom_fields a ∪ acc) ∅ chain
       ∧ recipe.description r
         = default "" (head (filter (λ d, d ≠ "") (recipe.description <$> chain)))
       ∧ ∀ x, x ∈ recipe.tags r ↔ ∃ a, a ∈ chain ∧ x ∈ recipe.tags a.
Proof.
  intros Hstored Hchain.
  eexists. split; [by apply resolve_template_chain|].
  destruct (fold_chain_metadata chain
              (recipe.RecipeTemplate_init template_id (recipe.name t) "" created modified))
    as (Hid & Hcf & Hd & Ht); [done..|].
  split_and!; [done| |done..].
  destruct (get_inheritance_chain_shape _ _ _ Hchain)
    as [[-> _]|(t0 & rest & tl & -> & Hg0 & _)]; [done|].
  assert (t0 = t) as -> by congruence.
  by rewrite fold_chain_last.
Qed.
End resolve_metadata.

(** ** Writing through the accessor *)
Section accessor_writes.
Import template_manager.
Context `{PyRuntime}.
Implicit Types (t : recipe.RecipeTemplate) (v obj : pyval).

(** Joining the segments of a path gives the path back. *)
Lemma join_split_dot path : join_dot (split_dot path) = path.
Proof.
  induction path as [|c rest IH]; [done|]. simpl.
  destruct (Ascii.eqb c ".") eqn:Hc.
  - apply Ascii.eqb_eq in Hc as ->.
    pose proof (split_dot_nonempty rest) as Hne.
    destruct (split_dot rest) as [|part parts]; [done|].
    change (join_dot ("" :: part :: parts)) with ("." +:+ join_dot (part :: parts)).
    by rewrite IH.
  - pose proof (split_dot_nonempty rest) as Hne.
    destruct (split_dot rest) as [|part parts]; [done|].
    destruct parts as [|part' parts]; simpl in *; by rewrite <- IH.
Qed.

Lemma split_dot_inj path other : split_dot path = split_dot other → path = other.
Proof. intros Heq. by rewrite <- (join_split_dot path), Heq, join_split_dot. Qed.

(** A path made of a dot-free segment, a dot and a rest. *)
Lemma split_dot_segment segment rest :
  split_dot segment = [segment] →
  split_dot (segment +:+ "." +:+ rest) = segment :: split_dot rest.
Proof.
  induction segment as [|c segment IH]; [done|]. simpl.
  destruct (Ascii.eqb c "."); [done|].
  pose proof (split_dot_nonempty segment) as Hne.
  destruct (split_dot segment) as [|part parts] eqn:Hs; [done|].
  intros [= -> ->]. by rewrite IH.
Qed.

Lemma py_getattr_instance obj name x :
  instance_attr obj name = Some x → py_getattr obj name = Return x.
Proof. intros Hx. unfold py_getattr. by rewrite Hx. Qed.

(** Reading two segments that are instance attributes. *)
Lemma get_field_loop_attr_attr obj sec fld cls attrs x :
  instance_attr obj sec = Some (PObj cls attrs) → attrs !! fld = Some x →
  get_field_loop obj [sec; fld] = Return x.
Proof.
  intros Hsec Hfld. cbn [get_field_loop].
  destruct obj; try done. cbn [is_None].
  unfold py_hasattr. rewrite (py_getattr_instance _ _ _ Hsec). cbn [mbind outcome_bind is_None].
  by rewrite (py_getattr_instance (PObj cls attrs) fld x).
Qed.

(** Writing two segments: an instance attribute that holds an instance,
    then an attribute of that instance which no data descriptor takes. *)
Lemma set_field_loop_attr_attr obj sec fld cls attrs x v :
  instance_attr obj sec = Some (PObj cls attrs) → attrs !! fld = Some x →
  type_setattr (PObj cls attrs) fld v = None →
  set_field_loop obj [sec; fld] v
  = Return (true, write_back obj sec (PObj cls (<[fld := v]> attrs))).
Proof.
  intros Hsec Hfld Hset. cbn [set_field_loop].
  unfold py_hasattr at 1. rewrite (py_getattr_instance _ _ _ Hsec).
  cbn [mbind outcome_bind].
  unfold py_hasattr. rewrite (py_getattr_instance (PObj cls attrs) fld x) by done.
  unfold py_setattr. by rewrite Hset.
Qed.

Lemma instance_attr_write_back obj sec child name :
  is_Some (instance_attr obj sec) →
  instance_attr (write_back obj sec child) name
  = if decide (sec = name) then Some child else instance_attr obj name.
Proof.
  destruct obj; simpl; try by intros [? ?].
  intros [old Hold]. rewrite Hold. simpl. rewrite lookup_insert.
  by destruct (decide (sec = name)).
Qed.

(** The fields of a section object are its instance attributes, and a path
    made of a section name and a field name has these two segments. *)
Lemma section_field_shape {S : Type} `{Dataclass S} (s : S) (sec : string) :
  split_dot sec = [sec] →
  (∀ f : dc_field, split_dot (dc_name f) = [dc_name f]) →
  NoDup (dc_name <$> dc_fields) →
  ∀ f, f ∈ dc_fields →
       ∃ attrs x, reflect_dataclass s = PObj dc_class attrs
                  ∧ attrs !! dc_name f = Some x
                  ∧ split_dot (sec +:+ "." +:+ dc_name f) = [sec; dc_name f].
Proof.
  intros Hsec Hnames Hnd f Hf. eexists _, _. split; [reflexivity|]. split.
  - apply elem_of_list_to_map_1.
    + rewrite <- list_fmap_compose. exact Hnd.
    + apply list_elem_of_fmap. by exists f.
  - rewrite split_dot_segment by done. by rewrite Hnames.
Qed.

Lemma instance_attr_temperature t :
  instance_attr (recipe.reflect t) "temperature"
  = Some (reflect_dataclass (recipe.temperature t)).
Proof. vm_compute. reflexivity. Qed.

Lemma instance_attr_gas_flow t :
  instance_attr (recipe.reflect t) "gas_flow"
  = Some (reflect_dataclass (recipe.gas_flow t)).
Proof. vm_compute. reflexivity. Qed.

Lemma instance_attr_precursor t :
  instance_attr (recipe.reflect t) "precursor"
  = Some (reflect_dataclass (recipe.precursor t)).
Proof. vm_compute. reflexivity. Qed.

Lemma instance_attr_substrate t :
  instance_attr (recipe.reflect t) "substrate"
  = Some (reflect_dataclass (recipe.substrate t)).
Proof. vm_compute. reflexivity. Qed.

(** A declared path has two segments: a section of the template and a
    field of that section. *)
Lemma declared_path_shape t path :
  path ∈ get_all_field_paths →
  ∃ sec fld cls attrs x,
    split_dot path = [sec; fld]
    ∧ instance_attr (recipe.reflect t) sec = Some (PObj cls attrs)
    ∧ attrs !! fld = Some x.
Proof.
  unfold get_all_field_paths, section_paths.
  rewrite !elem_of_app, !list_elem_of_fmap.
  intros [(f & -> & Hf)|[(f & -> & Hf)|[(f & -> & Hf)|(f & -> & Hf)]]].
  - destruct (section_field_shape (recipe.temperature t) "temperature")
      with (f := f) as (attrs & x & Hobj & Hx & Hsplit);
      [done | by intros [] | vm_compute; by repeat constructor; set_solver | done |].
    exists "temperature", (dc_name f), (@dc_class recipe.TemperatureProfile _), attrs, x.
    split_and!; [done| |done]. rewrite <- Hobj. apply instance_attr_temperature.
  - destruct (section_field_shape (recipe.gas_flow t) "gas_flow")
      with (f := f) as (attrs & x & Hobj & Hx & Hsplit);
      [done | by intros [] | vm_compute; by repeat constructor; set_solver | done |].
    exists "gas_flow", (dc_name f), (@dc_class recipe.GasFlow _), attrs, x.
    split_and!; [done| |done]. rewrite <- Hobj. apply instance_attr_gas_flow.
  - destruct (section_field_shape (recipe.precursor t) "precursor")
      with (f := f) as (attrs & x & Hobj & Hx & Hsplit);
      [done | by intros [] | vm_compute; by repeat constructor; set_solver | done |].
    exists "precursor", (dc_name f), (@dc_class recipe.PrecursorSetup _), attrs, x.
    split_and!; [done| |done]. rewrite <- Hobj. apply instance_attr_precursor.
  - destruct (section_field_shape (recipe.substrate t) "substrate")
      with (f := f) as (attrs & x & Hobj & Hx & Hsplit);
      [done | by intros [] | vm_compute; by repeat constructor; set_solver | done |].
    exists "substrate", (dc_name f), (@dc_class recipe.SubstrateInfo _), attrs, x.
    split_and!; [done| |done]. rewrite <- Hobj. apply instance_attr_substrate.
Qed.

(** X10. Setting a declared path of a template to any value succeeds; the path
    then reads that value, and every other declared path reads as before. *)
Theorem set_then_get_declared_path t path other v :
  path ∈ get_all_field_paths → other ∈ get_all_field_paths →
  (∀ cls attrs, type_setattr (PObj cls attrs) (List.last (split_dot path) "") v = None) →
  ∃ obj', _set_field_value (recipe.reflect t) path v = Return (true, obj')
          ∧ _get_field_value obj' path = Return v
          ∧ (other ≠ path →
             _get_field_value obj' other = _get_field_value (recipe.reflect t) other).
Proof.
  intros Hpath Hother Hset.
  destruct (declared_path_shape t path Hpath)
    as (sec & fld & cls & attrs & x & Hsplit & Hsec & Hfld).
  destruct (declared_path_shape t other Hother)
    as (sec' & fld' & cls' & attrs' & x' & Hsplit' & Hsec' & Hfld').
  rewrite Hsplit in Hset. simpl in Hset.
  unfold _set_field_value, _get_field_value. rewrite Hsplit, Hsplit'.
  eexists. split; [by eapply set_field_loop_attr_attr|].
  assert (is_Some (instance_attr (recipe.reflect t) sec)) as Hsome by by eauto.
  split.
  - eapply get_field_loop_attr_attr.
    + rewrite instance_attr_write_back by done. by rewrite decide_True.
    + apply lookup_insert_eq.
  - intros Hne. rewrite (get_field_loop_attr_attr _ _ _ _ _ _ Hsec' Hfld').
    destruct (decide (sec = sec')) as [<-|Hs].
    + assert (cls' = cls ∧ attrs' = attrs) as [-> ->] by (split; congruence).
      eapply get_field_loop_attr_attr.
      * rewrite instance_attr_write_back by done. by rewrite decide_True.
      * rewrite lookup_insert_ne; [done|]. intros <-.
        apply Hne, split_dot_inj. congruence.
    + eapply get_field_loop_attr_attr; [|done].
      rewrite instance_attr_write_back by done. by rewrite decide_False.
Qed.
End accessor_writes.

Section custom_fields_access.
Import template_manager.
Context `{PyRuntime}.
Implicit Types (t : recipe.RecipeTemplate) (v obj : pyval).

Lemma split_dot_custom_field key :
  split_dot key = [key] → split_dot ("custom_fields." +:+ key) = ["custom_fields"; key].
Proof.
  intros Hkey.
  change ("custom_fields." +:+ key) with ("custom_fields" +:+ "." +:+ key).
  rewrite split_dot_segment by done. by rewrite Hkey.
Qed.

Lemma instance_attr_custom_fields t :
  instance_attr (recipe.reflect t) "custom_fields" = Some (PDict (recipe.custom_fields t)).
Proof. vm_compute. reflexivity. Qed.

Lemma write_back_custom_fields t d :
  write_back (recipe.reflect t) "custom_fields" (PDict d)
  = recipe.reflect (with_custom_fields t d).
Proof. vm_compute. reflexivity. Qed.

(** X11. A custom field whose name has no dot and is no attribute of [dict]
    objects is read and written at [custom_fields.<name>]: reading gives the
    stored value, or [None] when there is none; writing any value succeeds
    and leaves the template with that one entry set. *)
Theorem custom_field_get_and_set t key v :
  split_dot key = [key] →
  (∀ d, type_attr (PDict d) key = None) →
  _get_field_value (recipe.reflect t) ("custom_fields." +:+ key)
  = Return (default PNone (recipe.custom_fields t !! key))
  ∧ _set_field_value (recipe.reflect t) ("custom_fields." +:+ key) v
    = Return (true, recipe.reflect
                      (with_custom_fields t (<[key := v]> (recipe.custom_fields t))))
  ∧ _get_field_value
      (recipe.reflect (with_custom_fields t (<[key := v]> (recipe.custom_fields t))))
      ("custom_fields." +:+ key)
    = Return v.
Proof.
  intros Hkey Hattr.
  assert (∀ d, py_hasattr (PDict d) key = false) as Hhas.
  { intros d. unfold py_hasattr, py_getattr. simpl. by rewrite Hattr. }
  assert (∀ t', get_field_loop (recipe.reflect t') ["custom_fields"; key]
                = Return (default PNone (recipe.custom_fields t' !! key))) as Hget.
  { intros t'. cbn [get_field_loop]. change (is_None (recipe.reflect t')) with false.
    unfold py_hasattr at 1.
    rewrite (py_getattr_instance _ _ _ (instance_attr_custom_fields t')).
    cbn [mbind outcome_bind is_None]. by rewrite Hhas. }
  unfold _get_field_value, _set_field_value.
  rewrite (split_dot_custom_field key Hkey). split_and!.
  - apply Hget.
  - cbn [set_field_loop]. unfold py_hasattr at 1.
    rewrite (py_getattr_instance _ _ _ (instance_attr_custom_fields t)).
    cbn [mbind outcome_bind]. rewrite Hhas. cbn [mbind outcome_bind fst snd].
    by rewrite write_back_custom_fields.
  - rewrite Hget. simpl. by rewrite lookup_insert_eq.
Qed.
End custom_fields_access.

(** ** Differences between templates *)
Section diff.
Import template_manager template_diff.
Context `{PyRuntime} `{PyCompare}.
Implicit Types (s : store) (a b t : recipe.RecipeTemplate).

(** What a declared path reads depends on the four sections only. *)
Lemma declared_value_of_sections path r a :
  path ∈ get_all_field_paths →
  recipe.temperature r = recipe.temperature a →
  recipe.gas_flow r = recipe.gas_flow a →
  recipe.precursor r = recipe.precursor a →
  recipe.substrate r = recipe.substrate a →
  _get_field_value (recipe.reflect r) path = _get_field_value (recipe.reflect a) path.
Proof.
  intros Hin Ht Hg Hp Hs. destruct r, a. simpl in *. subst.
  apply list_elem_of_In in Hin. vm_compute in Hin.
  repeat (destruct Hin as [<-|Hin]; [vm_compute; reflexivity|]).
  done.
Qed.

(** A declared path reads a float or a string. *)
Lemma declared_value_kind path a :
  path ∈ get_all_field_paths →
  (∃ f, _get_field_value (recipe.reflect a) path = Return (PFloat f))
  ∨ (∃ x, _get_field_value (recipe.reflect a) path = Return (PStr x)).
Proof.
  intros Hin. apply list_elem_of_In in Hin. vm_compute in Hin.
  repeat (destruct Hin as [<-|Hin];
    [match goal with
     | |- (∃ f, ?g = _) ∨ _ =>
         let r := eval vm_compute in g in
         assert (g = r) as -> by (vm_compute; reflexivity)
     end; first [left; eexists; reflexivity | right; eexists; reflexivity]|]).
  done.
Qed.

Lemma diff_loop_own r1 r2 a b paths :
  (∀ path, path ∈ paths → path ∈ get_all_field_paths) →
  (∀ path, path ∈ get_all_field_paths →
     _get_field_value (recipe.reflect r1) path = _get_field_value (recipe.reflect a) path) →
  (∀ path, path ∈ get_all_field_paths →
     _get_field_value (recipe.reflect r2) path = _get_field_value (recipe.reflect b) path) →
  diff_loop r1 r2 paths = Return (omap (own_diff_entry a b) paths).
Proof.
  intros Hsub H1 H2. induction paths as [|path paths IH]; [done|].
  assert (path ∈ get_all_field_paths) as Hpath by (apply Hsub; left).
  cbn [diff_loop omap list_omap]. unfold own_diff_entry at 1.
  rewrite (H1 path Hpath), (H2 path Hpath).
  destruct (known_path_value a path Hpath) as (v1 & -> & _).
  destruct (known_path_value b path Hpath) as (v2 & -> & _).
  cbn [mbind outcome_bind]. rewrite IH by (intros p Hp; apply Hsub; by right).
  cbn [mbind outcome_bind]. by destruct (py_ne v1 v2).
Qed.

Lemma diff_templates_own s created_1 modified_1 created_2 modified_2
    template_id_1 template_id_2 a b rest_1 rest_2 :
  odict.get s template_id_1 = Some a →
  get_inheritance_chain s template_id_1 = Return (a :: rest_1) →
  odict.get s template_id_2 = Some b →
  get_inheritance_chain s template_id_2 = Return (b :: rest_2) →
  diff_templates s created_1 modified_1 created_2 modified_2 template_id_1 template_id_2
  = Return (omap (own_diff_entry a b) get_all_field_paths).
Proof.
  intros Ha Hca Hb Hcb. unfold diff_templates.
  rewrite (resolve_template_chain s created_1 modified_1 _ a (a :: rest_1)) by done.
  rewrite (resolve_template_chain s created_2 modified_2 _ b (b :: rest_2)) by done.
  cbn [mbind outcome_bind]. rewrite !fold_chain_last.
  apply diff_loop_own; [done| |]; intros path Hpath;
    match goal with
    | |- context [_merge_templates ?base ?overlay] =>
        destruct (merge_templates_sections base overlay) as (Ht & Hg & Hp & Hs)
    end; by apply declared_value_of_sections.
Qed.

(** X12. [diff_templates] fails for an id that is not stored, the first one
    first.  For two stored templates it lists, in the order of the declared
    paths, the paths at which the stored values of the two templates
    themselves differ, each with those two values: what their ancestors
    store plays no part. *)
Theorem diff_templates_compares_own_values s created_1 modified_1 created_2 modified_2
    template_id_1 template_id_2 :
  (odict.get s template_id_1 = None →
     diff_templates s created_1 modified_1 created_2 modified_2 template_id_1 template_id_2
     = Raise (NotFound template_id_1))
  ∧ (∀ a b rest_1 rest_2,
       odict.get s template_id_1 = Some a →
       get_inheritance_chain s template_id_1 = Return (a :: rest_1) →
       odict.get s template_id_2 = Some b →
       get_inheritance_chain s template_id_2 = Return (b :: rest_2) →
       diff_templates s created_1 modified_1 created_2 modified_2
         template_id_1 template_id_2
       = Return (omap (own_diff_entry a b) get_all_field_paths)).
Proof.
  split.
  - intros Hnone. unfold diff_templates, resolve_template. by rewrite Hnone.
  - intros a b rest_1 rest_2. apply diff_templates_own.
Qed.

Lemma omap_nil_iff {A B} (f : A → option B) (l : list A) :
  omap f l = [] ↔ ∀ x, x ∈ l → f x = None.
Proof.
  induction l as [|x l IH]; csimpl.
  - split; [by intros _ y ?%elem_of_nil|done].
  - destruct (f x) eqn:Hfx.
    + split; [done|]. intros Hall. specialize (Hall x). rewrite Hfx in Hall.
      by discriminate Hall; left.
    + rewrite IH. split.
      * intros Hall y [->|Hy]%elem_of_cons; auto.
      * intros Hall y Hy. apply Hall. by right.
Qed.

Lemma Return_inj {A} (x y : A) : Return x = Return y ↔ x = y.
Proof. split; [by intros [= ->]|by intros ->]. Qed.

(** X13. The diff of a stored template with itself is empty exactly when none of
    its float fields is a NaN (a float that differs from itself). *)
Theorem diff_templates_self s created_1 modified_1 created_2 modified_2
    template_id a rest :
  odict.get s template_id = Some a →
  get_inheritance_chain s template_id = Return (a :: rest) →
  diff_templates s created_1 modified_1 created_2 modified_2 template_id template_id
  = Return []
  ↔ ∀ path f, path ∈ get_all_field_paths →
              _get_field_value (recipe.reflect a) path = Return (PFloat f) →
              PrimFloat.eqb f f = true.
Proof.
  intros Ha Hc.
  rewrite (diff_templates_own s _ _ _ _ _ _ a a rest rest Ha Hc Ha Hc).
  rewrite Return_inj, omap_nil_iff.
  split.
  - intros Hnone path f Hpath Hf. specialize (Hnone path Hpath).
    unfold own_diff_entry in Hnone. rewrite Hf, py_ne_float in Hnone.
    by destruct (PrimFloat.eqb f f).
  - intros Hall path Hpath. unfold own_diff_entry.
    destruct (declared_value_kind path a Hpath) as [[f Hf]|[x Hx]].
    + by rewrite Hf, py_ne_float, (Hall path f Hpath Hf).
    + by rewrite Hx, py_ne_str, bool_decide_true.
Qed.
End diff.

(** ** Dictionaries and back *)
Section round_trips.
Import persistence.

Lemma mapM_as_str (l : list string) : mapM as_str (PStr <$> l) = Some l.
Proof.
  apply mapM_Some. induction l as [|x l IH]; csimpl; constructor; done.
Qed.

Lemma as_str_list_round (l : list string) : as_str_list (PList (PStr <$> l)) = Some l.
Proof. apply mapM_as_str. Qed.

Lemma as_str_map_round (m : gmap string string) : as_str_map (PDict (PStr <$> m)) = Some m.
Proof.
  unfold as_str_map. rewrite decide_True.
  - f_equal. apply map_eq. intros k. rewrite lookup_omap, lookup_fmap.
    by destruct (m !! k).
  - intros k x. rewrite lookup_fmap. destruct (m !! k); intros [= <-]. by eexists.
Qed.

Lemma as_opt_str_round (o : option string) : as_opt_str (from_option PStr PNone o) = Some o.
Proof. by destruct o. Qed.

Lemma temperature_round (s : recipe.TemperatureProfile) :
  section_from_dict recipe.TemperatureProfile_default (section_to_dict s) = Some s.
Proof. destruct s. vm_compute. reflexivity. Qed.

Lemma gas_flow_round (s : recipe.GasFlow) :
  section_from_dict recipe.GasFlow_default (section_to_dict s) = Some s.
Proof. destruct s. vm_compute. reflexivity. Qed.

Lemma precursor_round (s : recipe.PrecursorSetup) :
  section_from_dict recipe.PrecursorSetup_default (section_to_dict s) = Some s.
Proof. destruct s. vm_compute. reflexivity. Qed.

Lemma substrate_round (s : recipe.SubstrateInfo) :
  section_from_dict recipe.SubstrateInfo_default (section_to_dict s) = Some s.
Proof. destruct s. vm_compute. reflexivity. Qed.

(** X14. [from_dict(to_dict(t))] is [t], and [from_dict] of the empty dictionary
    is the template of all defaults with a new id and new timestamps. *)
Theorem template_dict_round_trip uuid now_created now_modified :
  (∀ t, template_from_dict uuid now_created now_modified (template_to_dict t) = Some t)
  ∧ template_from_dict uuid now_created now_modified ∅
    = Some (recipe.RecipeTemplate_init uuid "" "" now_created now_modified).
Proof.
  split; [|vm_compute; reflexivity].
  intros t. unfold template_from_dict, get_or.
  assert (template_to_dict t !! "temperature"
          = Some (PDict (section_to_dict (recipe.temperature t)))) as ->
    by (vm_compute; reflexivity).
  assert (template_to_dict t !! "gas_flow"
          = Some (PDict (section_to_dict (recipe.gas_flow t)))) as ->
    by (vm_compute; reflexivity).
  assert (template_to_dict t !! "precursor"
          = Some (PDict (section_to_dict (recipe.precursor t)))) as ->
    by (vm_compute; reflexivity).
  assert (template_to_dict t !! "substrate"
          = Some (PDict (section_to_dict (recipe.substrate t)))) as ->
    by (vm_compute; reflexivity).
  assert (template_to_dict t !! "id" = Some (PStr (recipe.id t))) as ->
    by (vm_compute; reflexivity).
  assert (template_to_dict t !! "name" = Some (PStr (recipe.name t))) as ->
    by (vm_compute; reflexivity).
  assert (template_to_dict t !! "description" = Some (PStr (recipe.description t))) as ->
    by (vm_compute; reflexivity).
  assert (template_to_dict t !! "parent_template_id"
          = Some (from_option PStr PNone (recipe.parent_template_id t))) as ->
    by (vm_compute; reflexivity).
  assert (template_to_dict t !! "created_at" = Some (PStr (recipe.created_at t))) as ->
    by (vm_compute; reflexivity).
  assert (template_to_dict t !! "modified_at" = Some (PStr (recipe.modified_at t))) as ->
    by (vm_compute; reflexivity).
  assert (template_to_dict t !! "custom_fields" = Some (PDict (recipe.custom_fields t))) as ->
    by (vm_compute; reflexivity).
  assert (template_to_dict t !! "tags" = Some (PList (PStr <$> recipe.tags t))) as ->
    by (vm_compute; reflexivity).
  cbn [as_dict as_str mbind option_bind].
  rewrite as_opt_str_round, temperature_round, gas_flow_round, precursor_round,
    substrate_round, as_str_list_round.
  cbn [mbind option_bind]. by destruct t.
Qed.

(** X15. [Experiment.from_dict(e.to_dict())] is [e], and [from_dict] of the empty
    dictionary is a planned experiment with a new id and creation time, no
    template and no overrides. *)
Theorem experiment_dict_round_trip uuid now :
  (∀ e, experiment_from_dict uuid now (experiment_to_dict e) = Some e)
  ∧ experiment_from_dict uuid now ∅
    = Some {|
        experiment.id := uuid;
        experiment.name := "";
        experiment.template_id := "";
        experiment.created_at := now;
        experiment.run_date := None;
        experiment.completed_at := None;
        experiment.status := "planned";
        experiment.overrides := ∅;
        experiment.override_reasons := ∅;
        experiment.outcome := "unknown";
        experiment.notes := "";
        experiment.observations := "";
        experiment.sample_ids := [];
        experiment.characterization_ids := [];
        experiment.tags := [];
      |}.
Proof.
  split; [|vm_compute; reflexivity].
  intros e. unfold experiment_from_dict, get_or.
  assert (experiment_to_dict e !! "id" = Some (PStr (experiment.id e))) as ->
    by (vm_compute; reflexivity).
  assert (experiment_to_dict e !! "name" = Some (PStr (experiment.name e))) as ->
    by (vm_compute; reflexivity).
  assert (experiment_to_dict e !! "template_id"
          = Some (PStr (experiment.template_id e))) as ->
    by (vm_compute; reflexivity).
  assert (experiment_to_dict e !! "created_at"
          = Some (PStr (experiment.created_at e))) as ->
    by (vm_compute; reflexivity).
  assert (experiment_to_dict e !! "run_date"
          = Some (from_option PStr PNone (experiment.run_date e))) as ->
    by (vm_compute; reflexivity).
  assert (experiment_to_dict e !! "completed_at"
          = Some (from_option PStr PNone (experiment.completed_at e))) as ->
    by (vm_compute; reflexivity).
  assert (experiment_to_dict e !! "status" = Some (PStr (experiment.status e))) as ->
    by (vm_compute; reflexivity).
  assert (experiment_to_dict e !! "overrides"
          = Some (PDict (experiment.overrides e))) as ->
    by (vm_compute; reflexivity).
  assert (experiment_to_dict e !! "override_reasons"
          = Some (PDict (PStr <$> experiment.override_reasons e))) as ->
    by (vm_compute; reflexivity).
  assert (experiment_to_dict e !! "outcome" = Some (PStr (experiment.outcome e))) as ->
    by (vm_compute; reflexivity).
  assert (experiment_to_dict e !! "notes" = Some (PStr (experiment.notes e))) as ->
    by (vm_compute; reflexivity).
  assert (experiment_to_dict e !! "observations"
          = Some (PStr (experiment.observations e))) as ->
    by (vm_compute; reflexivity).
  assert (experiment_to_dict e !! "sample_ids"
          = Some (PList (PStr <$> experiment.sample_ids e))) as ->
    by (vm_compute; reflexivity).
  assert (experiment_to_dict e !! "characterization_ids"
          = Some (PList (PStr <$> experiment.characterization_ids e))) as ->
    by (vm_compute; reflexivity).
  assert (experiment_to_dict e !! "tags"
          = Some (PList (PStr <$> experiment.tags e))) as ->
    by (vm_compute; reflexivity).
  cbn [as_dict as_str mbind option_bind].
  rewrite !as_opt_str_round, as_str_map_round, !as_str_list_round.
  cbn [mbind option_bind]. by destruct e.
Qed.
End round_trips.

(** ** More on overrides *)
Section override_algebra.
Context `{PyRuntime}.
Implicit Types (e : experiment.Experiment) (resolved : recipe.RecipeTemplate).

(** Replacing the override maps twice is replacing them once. *)
Lemma with_overrides_twice e ov ov' reasons reasons' ov_1 reasons_1 :
  ov = ov' → reasons = reasons' →
  experiment.with_overrides (experiment.with_overrides e ov_1 reasons_1) ov reasons
  = experiment.with_overrides e ov' reasons'.
Proof. by intros -> ->. Qed.

(** X16. Every justification belongs to an override: [set_override] and
    [remove_override] keep it so. *)
Theorem override_reasons_stay_within_overrides e field_path value reason :
  dom (experiment.override_reasons e) ⊆ dom (experiment.overrides e) →
  dom (experiment.override_reasons (experiment.set_override e field_path value reason))
    ⊆ dom (experiment.overrides (experiment.set_override e field_path value reason))
  ∧ dom (experiment.override_reasons (experiment.remove_override e field_path))
    ⊆ dom (experiment.overrides (experiment.remove_override e field_path)).
Proof.
  intros Hsub. simpl. split.
  - destruct (str_truthy reason); rewrite ?dom_insert; set_solver.
  - rewrite !dom_delete. set_solver.
Qed.

(** X17. After [set_override] the path is overridden, [get_override] and the
    effective value are the new value, and the effective value of every
    other path is what it was. *)
Theorem set_override_takes_precedence e resolved field_path other value reason :
  let e' := experiment.set_override e field_path value reason in
  experiment.is_overridden e' field_path = true
  ∧ experiment.get_override e' field_path = value
  ∧ experiment_editor.effective_value e' resolved field_path = Return value
  ∧ (other ≠ field_path →
     experiment_editor.effective_value e' resolved other
     = experiment_editor.effective_value e resolved other).
Proof.
  intros e'. unfold e', experiment_editor.effective_value, experiment.is_overridden,
    experiment.get_override. simpl. split_and!.
  - rewrite lookup_insert_eq. by apply bool_decide_eq_true_2.
  - by rewrite lookup_insert_eq.
  - rewrite lookup_insert_eq.
    by destruct (get_field_value_total (recipe.reflect resolved) field_path) as [v ->].
  - intros Hne. by rewrite lookup_insert_ne.
Qed.

(** X18. A second [set_override] without a reason changes the value and leaves
    the justification of the first in place. *)
Theorem set_override_keeps_old_reason e field_path value_1 reason value_2 :
  reason ≠ "" →
  let e' := experiment.set_override
              (experiment.set_override e field_path value_1 reason)
              field_path value_2 "" in
  experiment.overrides e' !! field_path = Some value_2
  ∧ experiment.override_reasons e' !! field_path = Some reason.
Proof.
  intros Hreason%str_truthy_nonempty e'. unfold e'. simpl. rewrite Hreason.
  by rewrite !lookup_insert_eq.
Qed.

(** X19. [remove_override] undoes whatever [set_override] did to the path, it
    changes nothing when done twice, and overrides of different paths can be
    set in either order. *)
Theorem override_operations_compose e field_path other value value' reason reason' :
  experiment.remove_override (experiment.set_override e field_path value reason) field_path
  = experiment.remove_override e field_path
  ∧ experiment.remove_override (experiment.remove_override e field_path) field_path
    = experiment.remove_override e field_path
  ∧ (other ≠ field_path →
     experiment.set_override (experiment.set_override e field_path value reason)
       other value' reason'
     = experiment.set_override (experiment.set_override e other value' reason')
         field_path value reason).
Proof.
  unfold experiment.remove_override, experiment.set_override. split_and!.
  - apply with_overrides_twice; simpl; [apply delete_insert_eq|].
    destruct (str_truthy reason); [apply delete_insert_eq|done].
  - apply with_overrides_twice; simpl; apply delete_delete_eq.
  - intros Hne. unfold experiment.with_overrides. simpl. f_equal.
    + by apply insert_insert_ne.
    + destruct (str_truthy reason), (str_truthy reason'); try done.
      by apply insert_insert_ne.
Qed.
End override_algebra.

(** ** A parameter change in the experiment editor *)
Section param_change_facts.
Context `{PyRuntime} `{PyCompare}.
Import template_manager param_changes.

(** X20. [_on_param_changed]: [None] removes the override; a value for an
    experiment whose template is not stored is dropped; a failing resolution
    fails the handler; otherwise the path ends up overridden exactly when the
    value differs from the inherited one, the value the editor then shows
    for the path is the new value (or the inherited one it does not differ
    from), and no other override changes. *)
Theorem on_param_changed_cases s created modified e field_path value :
  (is_None value = true →
     _on_param_changed s created modified e field_path value
     = Return (experiment.remove_override e field_path))
  ∧ (is_None value = false →
     get_template s (experiment.template_id e) = None →
     _on_param_changed s created modified e field_path value = Return e)
  ∧ (∀ template x,
     is_None value = false →
     get_template s (experiment.template_id e) = Some template →
     resolve_template s created modified (recipe.id template) = Raise x →
     _on_param_changed s created modified e field_path value = Raise x)
  ∧ (∀ template resolved,
     is_None value = false →
     get_template s (experiment.template_id e) = Some template →
     resolve_template s created modified (recipe.id template) = Return resolved →
     ∃ inherited e',
       _get_field_value (recipe.reflect resolved) field_path = Return inherited
       ∧ _on_param_changed s created modified e field_path value = Return e'
       ∧ experiment.is_overridden e' field_path = py_ne value inherited
       ∧ experiment_editor.effective_value e' resolved field_path
         = Return (if py_ne value inherited then value else inherited)
       ∧ ∀ other, other ≠ field_path →
           experiment.overrides e' !! other = experiment.overrides e !! other).
Proof.
  unfold _on_param_changed. split_and!.
  - by intros ->.
  - by intros -> ->.
  - by intros template x -> -> ->.
  - intros template resolved -> -> ->. simpl.
    destruct (get_field_value_total (recipe.reflect resolved) field_path) as [inherited Hget].
    exists inherited. rewrite Hget. simpl.
    unfold experiment_editor.effective_value, experiment.is_overridden. rewrite Hget. simpl.
    destruct (py_ne value inherited); eexists; split_and!; try done; simpl.
    + rewrite lookup_insert_eq. by apply bool_decide_eq_true_2.
    + by rewrite lookup_insert_eq.
    + intros other Hne. by rewrite lookup_insert_ne.
    + rewrite lookup_delete_eq. apply bool_decide_eq_false_2. by intros [? ?].
    + by rewrite lookup_delete_eq.
    + intros other Hne. by rewrite lookup_delete_ne.
Qed.
End param_change_facts.

(** ** Concrete cases of the further properties *)
Section further_cases.
Import template_manager forest samples.

Lemma forest_empty : is_forest [].
Proof.
  split_and!.
  - split; [apply NoDup_nil_2|]. by intros ? ? ?%elem_of_nil.
  - by intros ? ? ?%elem_of_nil.
  - intros template_id. by rewrite get_inheritance_chain_unknown.
Qed.

Lemma built_store_AB : built store_AB.
Proof.
  apply built_create; [|done|reflexivity].
  apply (built_create [] "A"); [apply built_empty|done|reflexivity].
Qed.

Lemma forest_store_AB : is_forest store_AB.
Proof.
  apply create_template_forest; [|reflexivity].
  apply create_template_forest; [apply forest_empty|reflexivity].
Qed.

Lemma chain_tail_of_C :
  get_inheritance_chain store_ABC "B" = Return [template_B; template_A].
Proof.
  apply (proj2 (chain_tail_is_parent_chain store_ABC "C" template_C
                  [template_B; template_A] eq_refl) "B"); reflexivity.
Defined.

Lemma chain_of_C_is_stored_and_bounded :
  (length [template_C; template_B; template_A] ≤ length store_ABC)%nat
  ∧ ∀ t, t ∈ [template_C; template_B; template_A] → t ∈ odict.values store_ABC.
Proof.
  apply (chain_is_stored_and_bounded store_ABC "C"). reflexivity.
Defined.

Lemma create_C_keeps_forest :
  is_forest (create_template store_AB "C" "2025-01-01T00:00:00" "2025-01-01T00:00:00"
               "leaf" (Some "B") "").1.
Proof.
  apply (create_template_keeps_forest store_AB "C" "2025-01-01T00:00:00"
           "2025-01-01T00:00:00" "leaf" (Some "B") "").
  - apply forest_store_AB.
  - reflexivity.
Defined.

Lemma create_C_child_chain :
  ∃ chain,
    get_inheritance_chain store_AB "B" = Return chain
    ∧ get_inheritance_chain (store_AB ++ [("C", template_C)]) "C"
      = Return (template_C :: chain).
Proof.
  apply (create_template_child_chain store_AB "C" "2025-01-01T00:00:00"
           "2025-01-01T00:00:00" "leaf" "B" "").
  - apply forest_store_AB.
  - reflexivity.
  - discriminate.
  - discriminate.
  - exists template_B. reflexivity.
Defined.

Lemma delete_on_store_AB :
  is_forest (delete_template store_AB "B").1
  ∧ delete_template store_AB "A" = (store_AB, Raise (HasChildren "middle"))
  ∧ delete_template store_AB "B" = (odict.del store_AB "B", Return true).
Proof.
  split_and!.
  - apply (proj1 (delete_template_on_forest store_AB "B")), forest_store_AB.
  - apply (proj2 (delete_template_on_forest store_AB "A")).
    exists (fresh "A" "base"). reflexivity.
  - apply (proj2 (delete_template_on_forest store_AB "B")).
    exists template_B. reflexivity.
Defined.

Lemma store_AB_is_forest : is_forest store_AB.
Proof. apply built_store_is_forest, built_store_AB. Defined.

Lemma chain_of_B_ends_at_root :
  ∃ rest tl, get_inheritance_chain store_AB "B" = Return (template_B :: rest)
             ∧ last (template_B :: rest) = Some tl
             ∧ recipe.parent_template_id tl = None.
Proof.
  apply (built_chain_ends_at_root store_AB "B" template_B).
  - apply built_store_AB.
  - reflexivity.
Defined.

Lemma update_on_store_A :
  update_template store_A (fresh "Z" "other") "2025-01-02T00:00:00"
  = (store_A, Raise (NotFound "Z"))
  ∧ ∃ s', update_template store_A (recipe.with_parent (fresh "A" "base") (Some "ghost"))
            "2025-01-02T00:00:00" = (s', Return tt)
          ∧ odict.get s' "A" = Some dangling_A
          ∧ odict.keys s' = odict.keys store_A.
Proof.
  split.
  - apply (proj1 (update_template_cases store_A (fresh "Z" "other") "2025-01-02T00:00:00")).
    reflexivity.
  - destruct (proj2 (update_template_cases store_A
                       (recipe.with_parent (fresh "A" "base") (Some "ghost"))
                       "2025-01-02T00:00:00"))
      as (s' & Hupd & Hget & _ & Hkeys & _).
    + exists (fresh "A" "base"). reflexivity.
    + exists s'. split_and!; assumption.
Defined.

Lemma resolve_C_inherits_metadata :
  ∃ r, resolve_template (H:=cpython_fragment) store_ABC "c" "m" "C" = Return r
       ∧ recipe.id r = "C"
       ∧ recipe.name r = "leaf".
Proof.
  destruct (resolve_inherits_metadata (H:=cpython_fragment) store_ABC "c" "m" "C"
              template_C [template_C; template_B; template_A])
    as (r & Hr & Hid & Hname & _).
  - reflexivity.
  - reflexivity.
  - exists r. split_and!; assumption.
Defined.

Lemma set_then_get_peak_temp :
  ∃ obj', _set_field_value (H:=cpython_fragment) (recipe.reflect template_A)
            "temperature.peak_temp" (PFloat 800) = Return (true, obj')
          ∧ _get_field_value (H:=cpython_fragment) obj' "temperature.peak_temp"
            = Return (PFloat 800).
Proof.
  destruct (set_then_get_declared_path (H:=cpython_fragment) template_A
              "temperature.peak_temp" "gas_flow.ar_flow" (PFloat 800))
    as (obj' & Hset & Hget & _).
  - apply list_elem_of_In. vm_compute. auto 10.
  - apply list_elem_of_In. vm_compute. auto 20.
  - intros cls attrs. reflexivity.
  - exists obj'. split; assumption.
Defined.

Lemma custom_field_operator :
  _get_field_value (H:=cpython_fragment) (recipe.reflect template_A)
    ("custom_fields." +:+ "operator")
  = Return (default PNone (recipe.custom_fields template_A !! "operator"))
  ∧ _get_field_value (H:=cpython_fragment)
      (recipe.reflect
         (with_custom_fields template_A
            (<["operator" := PStr "sd"]> (recipe.custom_fields template_A))))
      ("custom_fields." +:+ "operator")
    = Return (PStr "sd").
Proof.
  destruct (custom_field_get_and_set (H:=cpython_fragment) template_A "operator" (PStr "sd"))
    as (Hget & _ & Hget').
  - vm_compute. reflexivity.
  - intros d. reflexivity.
  - split; assumption.
Defined.

Lemma diff_of_A_and_C :
  template_diff.diff_templates (H:=cpython_fragment) (H0:=py_compare_fragment)
    store_ABC "c" "m" "c" "m" "A" "C"
  = Return [ {| template_diff.field_path := "temperature.peak_temp";
                template_diff.value_1 := PFloat 700;
                template_diff.value_2 := PFloat 750 |} ]
  ∧ template_diff.diff_templates (H:=cpython_fragment) (H0:=py_compare_fragment)
      store_ABC "c" "m" "c" "m" "Z" "C"
    = Raise (NotFound "Z").
Proof.
  split.
  - etrans.
    + apply (proj2 (diff_templates_compares_own_values (H:=cpython_fragment)
                      (H0:=py_compare_fragment) store_ABC "c" "m" "c" "m" "A" "C")
               template_A template_C [] [template_B; template_A]); reflexivity.
    + vm_compute. reflexivity.
  - apply (proj1 (diff_templates_compares_own_values (H:=cpython_fragment)
                    (H0:=py_compare_fragment) store_ABC "c" "m" "c" "m" "Z" "C")).
    reflexivity.
Defined.

Lemma diff_of_A_and_A :
  template_diff.diff_templates (H:=cpython_fragment) (H0:=py_compare_fragment)
    store_ABC "c" "m" "c" "m" "A" "A"
  = Return [].
Proof.
  apply (diff_templates_self (H:=cpython_fragment) (H0:=py_compare_fragment)
           store_ABC "c" "m" "c" "m" "A" template_A []); [reflexivity..|].
  intros path f Hpath%list_elem_of_In Hf. vm_compute in Hpath.
  repeat (destruct Hpath as [<-|Hpath];
          [vm_compute in Hf; first [discriminate Hf | injection Hf as <-; reflexivity]|]).
  destruct Hpath.
Defined.

Lemma param_change_on_experiment_1 :
  param_changes._on_param_changed (H:=cpython_fragment) (H0:=py_compare_fragment)
    store_ABC "c" "m" experiment_1 "temperature.peak_temp" PNone
  = Return (experiment.remove_override experiment_1 "temperature.peak_temp")
  ∧ param_changes._on_param_changed (H:=cpython_fragment) (H0:=py_compare_fragment)
      [] "c" "m" experiment_1 "temperature.peak_temp" (PFloat 800)
    = Return experiment_1
  ∧ ∃ inherited e',
      param_changes._on_param_changed (H:=cpython_fragment) (H0:=py_compare_fragment)
        store_ABC "c" "m" experiment_1 "temperature.peak_temp" (PFloat 800)
      = Return e'
      ∧ experiment.is_overridden e' "temperature.peak_temp"
        = py_ne (PyCompare:=py_compare_fragment) (PFloat 800) inherited.
Proof.
  pose proof (on_param_changed_cases (H:=cpython_fragment) (H0:=py_compare_fragment))
    as Hcases.
  split_and!.
  - apply (proj1 (Hcases store_ABC "c" "m" experiment_1 "temperature.peak_temp" PNone)).
    reflexivity.
  - apply (proj1 (proj2 (Hcases [] "c" "m" experiment_1 "temperature.peak_temp"
                           (PFloat 800)))); reflexivity.
  - destruct (resolve_template (H:=cpython_fragment) store_ABC "c" "m" "C")
      as [resolved|x|] eqn:Hresolved; [|vm_compute in Hresolved; discriminate..].
    destruct (proj2 (proj2 (proj2 (Hcases store_ABC "c" "m" experiment_1
                                     "temperature.peak_temp" (PFloat 800))))
                template_C resolved)
      as (inherited & e' & _ & Hchange & Hover & _).
    + reflexivity.
    + reflexivity.
    + exact Hresolved.
    + exists inherited, e'. split; assumption.
Defined.

Lemma override_reasons_within_overrides_on_experiment_1 :
  dom (experiment.override_reasons
         (experiment.set_override experiment_1 "temperature.peak_temp" (PFloat 800) "hotter"))
    ⊆ dom (experiment.overrides
             (experiment.set_override experiment_1 "temperature.peak_temp" (PFloat 800)
                "hotter"))
  ∧ dom (experiment.override_reasons
           (experiment.remove_override experiment_1 "temperature.peak_temp"))
    ⊆ dom (experiment.overrides
             (experiment.remove_override experiment_1 "temperature.peak_temp")).
Proof.
  apply (override_reasons_stay_within_overrides experiment_1 "temperature.peak_temp"
           (PFloat 800) "hotter").
  simpl. set_solver.
Defined.

Lemma second_override_keeps_reason_on_experiment_1 :
  let e' := experiment.set_override
              (experiment.set_override experiment_1 "temperature.peak_temp"
                 (PFloat 800) "hotter")
              "temperature.peak_temp" (PFloat 820) "" in
  experiment.overrides e' !! "temperature.peak_temp" = Some (PFloat 820)
  ∧ experiment.override_reasons e' !! "temperature.peak_temp" = Some "hotter".
Proof.
  apply (set_override_keeps_old_reason experiment_1 "temperature.peak_temp"
           (PFloat 800) "hotter" (PFloat 820)).
  discriminate.
Defined.
End further_cases.
